(** * django_opensearch_dsl.documents: a shallow embedding and its properties

    The module [documents.py] turns rows of a Django model into bulk actions
    for an OpenSearch index.  This development embeds the [Document] class
    (field mapping, document preparation, queryset chunking, action building
    and bulk dispatch) and proves the properties stated about it. *)

From Stdlib Require Import List String Ascii ZArith Bool Lia Arith.
From Stdlib Require Import Sorting.Sorted Sorting.Permutation.
From Stdlib Require Import DecimalString.
Import ListNotations.

Local Open Scope string_scope.
Local Open Scope Z_scope.

(* ================================================================== *)
(** ** Python values *)
(* ================================================================== *)

(** The Python values that travel through the module: [None], booleans,
    integers, strings, lists and dictionaries.  A dictionary keeps its keys
    in insertion order. *)
#[warnings="-register-all"] Inductive PyVal : Type :=
| VNone
| VBool (b : bool)
| VInt (z : Z)
| VStr (s : string)
| VList (l : list PyVal)
| VDict (d : list (string * PyVal)).

(** Insertion-ordered dictionaries with string keys. *)
Module PyDict.

Definition t (V : Type) : Type := list (string * V).

Definition empty {V} : t V := [].

Fixpoint get {V} (k : string) (d : t V) : option V :=
  match d with
  | [] => None
  | (k', v) :: d' => if String.eqb k k' then Some v else get k d'
  end.

Definition mem {V} (k : string) (d : t V) : bool :=
  match get k d with Some _ => true | None => false end.

(** [d[k] = v]: an existing key keeps its position and takes the new
    value, a new key goes to the end. *)
Fixpoint set {V} (k : string) (v : V) (d : t V) : t V :=
  match d with
  | [] => [(k, v)]
  | (k', v') :: d' =>
      if String.eqb k k' then (k', v) :: d' else (k', v') :: set k v d'
  end.

Definition keys {V} (d : t V) : list string := map fst d.

Definition items {V} (d : t V) : list (string * V) := d.

(** A dictionary display [{k1: v1, ..., kn: vn}] or a comprehension:
    the entries are stored one after the other. *)
Definition of_entries {V} (entries : list (string * V)) : t V :=
  fold_left (fun d kv => set (fst kv) (snd kv) d) entries empty.

(** [d.setdefault(k, v)] as used for its effect on [d]. *)
Definition setdefault {V} (k : string) (v : V) (d : t V) : t V :=
  if mem k d then d else set k v d.

(** Keys of a dictionary are pairwise distinct. *)
Definition wf {V} (d : t V) : Prop := NoDup (keys d).

End PyDict.

(** Exceptions raised by the module or by the query layer under it. *)
Inductive Exception : Type :=
| ModelFieldNotMappedError (msg : string)
| ValueError (msg : string).

(** [str(n)] for an integer. *)
Definition str_of_int (n : Z) : string := NilZero.string_of_int (Z.to_int n).

(** Carriage return and line feed, as single-character strings. *)
Definition CR : string := String (ascii_of_nat 13) EmptyString.
Definition LF : string := String (ascii_of_nat 10) EmptyString.

(* ================================================================== *)
(** ** Django models and fields *)
(* ================================================================== *)

(** A model instance: its primary key and its column values. *)
Record Model : Type := mkModel {
  pk : Z;
  columns : list (string * PyVal)
}.

(** The classes of [django.db.models] fields.  The first twenty-four are the
    keys of the mapping table; the others stand for classes outside of it,
    among them user-defined subclasses of any field class. *)
Inductive ModelFieldClass : Type :=
| AutoField | BigAutoField | BigIntegerField | BooleanField | CharField
| DateField | DateTimeField | DecimalField | EmailField | FileField
| FilePathField | FloatField | ImageField | IntegerField | NullBooleanField
| PositiveBigIntegerField | PositiveIntegerField | PositiveSmallIntegerField
| SlugField | SmallIntegerField | TextField | TimeField | URLField | UUIDField
| BinaryField | DurationField | GenericIPAddressField | JSONField
| SmallAutoField | ForeignKey | OneToOneField | ManyToManyField
| Subclass (name : string) (base : ModelFieldClass).

Fixpoint ModelFieldClass_eqb (a b : ModelFieldClass) : bool :=
  match a, b with
  | AutoField, AutoField | BigAutoField, BigAutoField
  | BigIntegerField, BigIntegerField | BooleanField, BooleanField
  | CharField, CharField | DateField, DateField
  | DateTimeField, DateTimeField | DecimalField, DecimalField
  | EmailField, EmailField | FileField, FileField
  | FilePathField, FilePathField | FloatField, FloatField
  | ImageField, ImageField | IntegerField, IntegerField
  | NullBooleanField, NullBooleanField
  | PositiveBigIntegerField, PositiveBigIntegerField
  | PositiveIntegerField, PositiveIntegerField
  | PositiveSmallIntegerField, PositiveSmallIntegerField
  | SlugField, SlugField | SmallIntegerField, SmallIntegerField
  | TextField, TextField | TimeField, TimeField | URLField, URLField
  | UUIDField, UUIDField | BinaryField, BinaryField
  | DurationField, DurationField
  | GenericIPAddressField, GenericIPAddressField | JSONField, JSONField
  | SmallAutoField, SmallAutoField | ForeignKey, ForeignKey
  | OneToOneField, OneToOneField | ManyToManyField, ManyToManyField => true
  | Subclass n1 b1, Subclass n2 b2 =>
      String.eqb n1 n2 && ModelFieldClass_eqb b1 b2
  | _, _ => false
  end.

(** A model field instance; [__class__] is its concrete class. *)
Record ModelField : Type := mkModelField {
  __class__ : ModelFieldClass;
  column_name : string
}.

(** The index field classes of the [fields] module that the table names. *)
Inductive FieldClass : Type :=
| fields_IntegerField | fields_LongField | fields_BooleanField
| fields_TextField | fields_DateField | fields_DoubleField
| fields_FileField | fields_KeywordField | fields_ShortField.

(** An index field object ([fields.DODField]): its class, the attribute it
    was constructed with, and its access path. *)
Record DODField : Type := mkDODField {
  field_class : FieldClass;
  attr : option string;
  _path : list string
}.

(** The parts of the [fields] module that [documents.py] calls and that are
    declared elsewhere: how the constructor derives the access path from
    [attr], and the default value extraction of a field. *)
Class FieldsModule : Type := {
  attr_path : string -> list string;
  get_value_from_instance : DODField -> Model -> option Model -> PyVal
}.

(** [cls(attr=field_name)]. *)
Definition DODField_new `{FieldsModule} (cls : FieldClass) (field_name : string)
  : DODField :=
  {| field_class := cls; attr := Some field_name; _path := attr_path field_name |}.

(** An entry of a document's [_fields]: a reference to a [DODField] object,
    or a field object of another kind (which
    [isinstance(field, fields.DODField)] rejects).  Two entries with the
    same reference hold the same object. *)
Inductive FieldObject : Type :=
| DOD (ref : nat)
| ForeignField (description : string).

(** [model_field_class_to_field_class] *)
Definition model_field_class_to_field_class
  : list (ModelFieldClass * FieldClass) :=
  [ (AutoField, fields_IntegerField);
    (BigAutoField, fields_LongField);
    (BigIntegerField, fields_LongField);
    (BooleanField, fields_BooleanField);
    (CharField, fields_TextField);
    (DateField, fields_DateField);
    (DateTimeField, fields_DateField);
    (DecimalField, fields_DoubleField);
    (EmailField, fields_TextField);
    (FileField, fields_FileField);
    (FilePathField, fields_KeywordField);
    (FloatField, fields_DoubleField);
    (ImageField, fields_FileField);
    (IntegerField, fields_IntegerField);
    (NullBooleanField, fields_BooleanField);
    (PositiveBigIntegerField, fields_LongField);
    (PositiveIntegerField, fields_IntegerField);
    (PositiveSmallIntegerField, fields_ShortField);
    (SlugField, fields_KeywordField);
    (SmallIntegerField, fields_ShortField);
    (TextField, fields_TextField);
    (TimeField, fields_LongField);
    (URLField, fields_TextField);
    (UUIDField, fields_KeywordField) ].

(** Subscription [table[cls]]: the value of the key that is this very class,
    [None] standing for [KeyError]. *)
Fixpoint table_lookup (table : list (ModelFieldClass * FieldClass))
  (cls : ModelFieldClass) : option FieldClass :=
  match table with
  | [] => None
  | (k, v) :: rest =>
      if ModelFieldClass_eqb k cls then Some v else table_lookup rest cls
  end.

(** [Document.to_field] *)
Definition to_field `{FieldsModule} (field_name : string) (model_field : ModelField)
  : Exception + DODField :=
  match table_lookup model_field_class_to_field_class (__class__ model_field) with
  | Some cls => inr (DODField_new cls field_name)
  | None =>
      inl (ModelFieldNotMappedError
             ("Cannot convert model field " ++ field_name
              ++ " to an Opensearch field!"))
  end.

(* ================================================================== *)
(** ** Enumerations *)
(* ================================================================== *)

(** Modelled from the spec: the [enums] module is declared elsewhere.
    [BulkAction] is one of INDEX, UPDATE and DELETE; its members are strings
    (the module compares them with string literals) whose values are the
    operation names of the bulk protocol. *)
Inductive BulkAction : Type := INDEX | UPDATE | DELETE.

Definition BulkAction_value (a : BulkAction) : string :=
  match a with
  | INDEX => "index"
  | UPDATE => "update"
  | DELETE => "delete"
  end.

(** [action == "..."] and [action != "..."] on a string-valued member. *)
Definition action_eq (a : BulkAction) (s : string) : bool :=
  String.eqb (BulkAction_value a) s.
Definition action_ne (a : BulkAction) (s : string) : bool :=
  negb (action_eq a s).

(** Modelled from the spec: a [CommandAction] carries a present-participle
    label for progress display; [present_participle_title] is that label
    after [str.title()]. *)
Record CommandAction : Type := mkCommandAction {
  present_participle_title : string
}.

(* ================================================================== *)
(** ** The Document class *)
(* ================================================================== *)

(** A [prepare_<name>] or [prepare_<name>_with_related] attribute: a callable
    applied to the instance and, when it was bound with [partial], to the
    keyword [related_to_ignore]. *)
Definition PrepareMethod : Type := Model -> option (option Model) -> PyVal.

(** What a concrete document class declares: the Django model and index
    behind it, its index fields and the methods it may override. *)
Record DocumentClass : Type := mkDocumentClass {
  class_name : string;                          (* __class__ *)
  model_name : string;                          (* django.model.__name__ *)
  model_objects : list Model;    (* django.model.objects.all(), in the
                                    order the store gives without ORDER BY *)
  queryset_pagination : Z;                      (* django.queryset_pagination *)
  index_name : string;                          (* _index._name *)
  Index_auto_refresh : option bool;             (* Index.auto_refresh, if set *)
  field_objects : nat -> DODField;   (* the DODField objects, by reference *)
  _fields : option (PyDict.t FieldObject);      (* _fields, if set *)
  getattr_prepare : string -> option PrepareMethod;
  should_index_object : Model -> bool;
  generate_id : Model -> PyVal
}.

(** [Document.should_index_object] as the base class defines it. *)
Definition Document_should_index_object (object_instance : Model) : bool := true.

(** [Document.generate_id] as the base class defines it. *)
Definition Document_generate_id (object_instance : Model) : PyVal :=
  VInt (pk object_instance).

(** The class once field objects have been written to. *)
Definition with_field_objects (objects : nat -> DODField)
  (cls : DocumentClass) : DocumentClass :=
  {| class_name := class_name cls;
     model_name := model_name cls;
     model_objects := model_objects cls;
     queryset_pagination := queryset_pagination cls;
     index_name := index_name cls;
     Index_auto_refresh := Index_auto_refresh cls;
     field_objects := objects;
     _fields := _fields cls;
     getattr_prepare := getattr_prepare cls;
     should_index_object := should_index_object cls;
     generate_id := generate_id cls |}.

(** Assignment to the object behind a reference. *)
Definition set_object (ref : nat) (field : DODField)
  (objects : nat -> DODField) : nat -> DODField :=
  fun r => if Nat.eqb r ref then field else objects r.

(** An entry of [_prepared_fields].  Its field is the field object in the
    state [init_prepare] leaves it in: once an access path is set,
    [init_prepare] does not change it. *)
Definition PreparedField : Type := (string * DODField * (Model -> PyVal))%type.

(** A document instance. *)
Record Document : Type := mkDocument {
  doc_class : DocumentClass;
  _related_instance_to_ignore : option Model;
  _prepared_fields : list PreparedField
}.

Section WithFields.
Context `{FieldsModule}.

(** The loop of [init_prepare] over [index_fields.items()].  The field
    objects are shared: [field._path = [name]] writes to the object, and a
    later entry that holds the same object finds the path set. *)
Fixpoint init_prepare_loop (self : Document)
  (items : list (string * FieldObject)) (objects : nat -> DODField)
  (preparers : list PreparedField)
  : list PreparedField * (nat -> DODField) :=
  match items with
  | [] => (preparers, objects)
  | (name, ForeignField _) :: rest =>
      init_prepare_loop self rest objects preparers
  | (name, DOD ref) :: rest =>
      let field := objects ref in
      let '(field, objects) :=
        match _path field with
        | [] =>
            let field := {| field_class := field_class field;
                            attr := attr field; _path := [name] |} in
            (field, set_object ref field objects)
        | _ :: _ => (field, objects)
        end in
      let fn : Model -> PyVal :=
        match getattr_prepare (doc_class self)
                ("prepare_" ++ name ++ "_with_related") with
        | Some prep_func =>
            fun instance =>
              prep_func instance (Some (_related_instance_to_ignore self))
        | None =>
            match getattr_prepare (doc_class self) ("prepare_" ++ name) with
            | Some prep_func => fun instance => prep_func instance None
            | None =>
                fun instance =>
                  get_value_from_instance field instance
                    (_related_instance_to_ignore self)
            end
        end in
      init_prepare_loop self rest objects (preparers ++ [(name, field, fn)])
  end.

(** [Document.init_prepare]: the list it returns, and the field objects as
    it leaves them. *)
Definition init_prepare (self : Document)
  : list PreparedField * (nat -> DODField) :=
  let index_fields :=
    match _fields (doc_class self) with
    | Some d => d
    | None => PyDict.empty
    end in
  init_prepare_loop self (PyDict.items index_fields)
    (field_objects (doc_class self)) [].

(** [Document.__init__].  The field objects belong to the class: what
    [init_prepare] wrote to them stays written. *)
Definition Document__init__ (cls : DocumentClass)
  (related_instance_to_ignore : option Model) : Document :=
  let self := {| doc_class := cls;
                 _related_instance_to_ignore := related_instance_to_ignore;
                 _prepared_fields := [] |} in
  {| doc_class := with_field_objects (snd (init_prepare self)) cls;
     _related_instance_to_ignore := related_instance_to_ignore;
     _prepared_fields := fst (init_prepare self) |}.

End WithFields.

(** [Document.prepare] *)
Definition prepare (self : Document) (instance : Model) : PyDict.t PyVal :=
  PyDict.of_entries
    (map (fun p : PreparedField =>
            let '(name, field, prep_func) := p in (name, prep_func instance))
         (_prepared_fields self)).

(** [Document._prepare_action] *)
Definition _prepare_action (self : Document) (object_instance : Model)
  (action : BulkAction) : PyDict.t PyVal :=
  PyDict.of_entries
    [ ("_op_type", VStr (BulkAction_value action));
      ("_index", VStr (index_name (doc_class self)));
      ("_id", generate_id (doc_class self) object_instance);
      (if action_ne action "update" then "_source" else "doc",
       if action_ne action "delete"
       then VDict (prepare self object_instance) else VNone) ].

(** [Document._get_actions], the generator drained into a list. *)
Fixpoint _get_actions (self : Document) (object_list : list Model)
  (action : BulkAction) : list (PyDict.t PyVal) :=
  match object_list with
  | [] => []
  | object_instance :: rest =>
      if action_eq action "delete"
         || should_index_object (doc_class self) object_instance
      then _prepare_action self object_instance action
             :: _get_actions self rest action
      else _get_actions self rest action
  end.

(* ================================================================== *)
(** ** Querysets *)
(* ================================================================== *)

(** A [Q] object that is true as a condition, as the predicate on rows it
    denotes; an absent or empty [Q] (false as a condition) is [None]. *)
Definition Q : Type := Model -> bool.

(** A lazy Django queryset: the rows of the table in the order the store
    returns them when no ordering is asked for, the WHERE condition, the
    ORDER BY clause (as the integer key sorted on, ascending) and the slice
    limits [low_mark], [high_mark] of the query. *)
Record QuerySet : Type := mkQuerySet {
  qs_rows : list Model;
  qs_where : Model -> bool;
  qs_ordering : option (Model -> Z);
  low_mark : Z;
  high_mark : option Z
}.

Module QS.

(** [model.objects.all()] *)
Definition all (rows : list Model) : QuerySet :=
  {| qs_rows := rows; qs_where := fun _ => true; qs_ordering := None;
     low_mark := 0; high_mark := None |}.

Definition filter (q : Q) (qs : QuerySet) : QuerySet :=
  {| qs_rows := qs_rows qs;
     qs_where := fun m => qs_where qs m && q m;
     qs_ordering := qs_ordering qs;
     low_mark := low_mark qs; high_mark := high_mark qs |}.

Definition exclude (q : Q) (qs : QuerySet) : QuerySet :=
  {| qs_rows := qs_rows qs;
     qs_where := fun m => qs_where qs m && negb (q m);
     qs_ordering := qs_ordering qs;
     low_mark := low_mark qs; high_mark := high_mark qs |}.

(** [qs.order_by(key)]: any earlier ordering is dropped. *)
Definition order_by (key : Model -> Z) (qs : QuerySet) : QuerySet :=
  {| qs_rows := qs_rows qs; qs_where := qs_where qs;
     qs_ordering := Some key;
     low_mark := low_mark qs; high_mark := high_mark qs |}.

(** [qs.query.is_sliced] *)
Definition is_sliced (qs : QuerySet) : bool :=
  negb (low_mark qs =? 0)
  || match high_mark qs with Some _ => true | None => false end.

(** [Query.set_limits(low, high)]: limits are relative to the ones the
    query already has. *)
Definition set_limits (low high : option Z) (qs : QuerySet) : QuerySet :=
  let high_mark' :=
    match high with
    | Some h =>
        match high_mark qs with
        | Some hm => Some (Z.min hm (low_mark qs + h))
        | None => Some (low_mark qs + h)
        end
    | None => high_mark qs
    end in
  let low_mark' :=
    match low with
    | Some l =>
        match high_mark' with
        | Some hm => Z.min hm (low_mark qs + l)
        | None => low_mark qs + l
        end
    | None => low_mark qs
    end in
  {| qs_rows := qs_rows qs; qs_where := qs_where qs;
     qs_ordering := qs_ordering qs;
     low_mark := low_mark'; high_mark := high_mark' |}.

Definition negative (bound : option Z) : bool :=
  match bound with Some b => b <? 0 | None => false end.

(** [qs[start:stop]] *)
Definition getitem (start stop : option Z) (qs : QuerySet)
  : Exception + QuerySet :=
  if negative start || negative stop
  then inl (ValueError "Negative indexing is not supported.")
  else inr (set_limits start stop qs).

(** Stable sort on an integer key. *)
Fixpoint insert_by (key : Model -> Z) (x : Model) (l : list Model)
  : list Model :=
  match l with
  | [] => [x]
  | y :: l' => if key x <=? key y then x :: l else y :: insert_by key x l'
  end.

Definition sort_by (key : Model -> Z) (l : list Model) : list Model :=
  fold_right (insert_by key) [] l.

(** The rows selected and ordered, before the slice is taken. *)
Definition selected (qs : QuerySet) : list Model :=
  let rows := List.filter (qs_where qs) (qs_rows qs) in
  match qs_ordering qs with
  | Some key => sort_by key rows
  | None => rows
  end.

(** Running the query: the rows that iterating the queryset gives. *)
Definition evaluate (qs : QuerySet) : list Model :=
  let rows := skipn (Z.to_nat (low_mark qs)) (selected qs) in
  match high_mark qs with
  | Some hm => firstn (Z.to_nat (hm - low_mark qs)) rows
  | None => rows
  end.

(** [qs.count()] *)
Definition count (qs : QuerySet) : Z :=
  Z.of_nat (List.length (evaluate qs)).

End QS.

(** [Document.get_queryset] *)
Definition get_queryset (self : Document) (filter_ exclude : option Q)
  (count : option Z) : Exception + QuerySet :=
  let qs := QS.all (model_objects (doc_class self)) in
  let qs := match filter_ with Some q => QS.filter q qs | None => qs end in
  let qs := match exclude with Some q => QS.exclude q qs | None => qs end in
  match count with
  | Some c => QS.getitem None (Some c) qs
  | None => inr qs
  end.

(** The ordering step of [get_indexing_queryset]:
    [qs.order_by("pk") if not qs.query.is_sliced else qs]. *)
Definition indexing_order (qs : QuerySet) : QuerySet :=
  if negb (QS.is_sliced qs) then QS.order_by pk qs else qs.

(* ================================================================== *)
(** ** Progress estimates *)
(* ================================================================== *)

(** The float arithmetic the progress lines use: conversion from [int],
    subtraction, true division, multiplication, and [round] to an [int]. *)
Class PyFloat (F : Type) : Type := {
  float_of_int : Z -> F;
  fsub : F -> F -> F;
  fdiv : F -> F -> F;
  fmul : F -> F -> F;
  pyround : F -> Z
}.

Section Progress.
Context {F : Type} `{PyFloat F}.

(** The wall clock: [clock n] is what the [n]-th call of [time.time()]
    returns. *)
Variable clock : nat -> F.

(** [Document._eta].  The clock is read only when [done] is not zero; the
    second component counts the readings. *)
Definition _eta (tick : nat) (start : F) (done total : Z) : string * nat :=
  if done =? 0 then ("~", tick)
  else
    let eta :=
      pyround (fmul (fdiv (fsub (clock tick) start) (float_of_int done))
                    (float_of_int (total - done))) in
    let unit := "secs" in
    let '(eta, unit) :=
      if eta >? 120 then (eta / 60, "mins") else (eta, unit) in
    (str_of_int eta ++ " " ++ unit, S tick).

(** [round(i / total * 100)] *)
Definition percent (i total : Z) : Z :=
  pyround (fmul (fdiv (float_of_int i) (float_of_int total))
                (float_of_int 100)).

(** One pass of the [while] loop of [get_indexing_queryset]: the values of
    [i] and [done] and the number of clock readings on entry, the line
    written and the page of records yielded. *)
Record Iteration : Type := mkIteration {
  it_i : Z;
  it_done : Z;
  it_tick : nat;
  it_line : option string;
  it_page : list Model
}.

(** How the generator ended: it ran to its end, raised, or the bound on
    the number of passes was reached first. *)
Inductive Status : Type :=
| Exhausted
| Raised (e : Exception)
| OutOfFuel.

(** What draining the generator gives: the line written before the loop,
    the passes of the loop, the closing line. *)
Record Run : Type := mkRun {
  header : option string;
  iterations : list Iteration;
  footer : option string;
  status : Status
}.

Definition yielded (r : Run) : list Model :=
  List.concat (map it_page (iterations r)).

Definition opt_list {A} (o : option A) : list A :=
  match o with Some a => [a] | None => [] end.

(** Everything written to [stdout], in order. *)
Definition written (r : Run) : list string :=
  (opt_list (header r)
   ++ List.concat (map (fun it => opt_list (it_line it)) (iterations r))
   ++ opt_list (footer r))%list.

Section Loop.
Variables (verbose : bool) (action model : string).
Variables (qs : QuerySet) (chunk_size total : Z) (start : F).

Definition progress_line (pct : string) (eta : string) : string :=
  action ++ " " ++ model ++ ": " ++ pct ++ "% (" ++ eta ++ ")" ++ CR.

(** The [while done < total] loop, for at most [fuel] passes. *)
Fixpoint indexing_loop (fuel : nat) (i done : Z) (tick : nat)
  : list Iteration * Status :=
  if done <? total then
    match fuel with
    | O => ([], OutOfFuel)
    | S fuel' =>
        let '(line, tick') :=
          if verbose then
            let '(eta, tick') := _eta tick start done total in
            (Some (progress_line (str_of_int (percent i total)) eta), tick')
          else (None, tick) in
        match QS.getitem (Some i) (Some (i + chunk_size)) qs with
        | inl e =>
            ([{| it_i := i; it_done := done; it_tick := tick;
                 it_line := line; it_page := [] |}], Raised e)
        | inr page_qs =>
            let page := QS.evaluate page_qs in
            let done' := done + Z.of_nat (List.length page) in
            let i' := Z.min (i + chunk_size) total in
            let '(rest, st) := indexing_loop fuel' i' done' tick' in
            ({| it_i := i; it_done := done; it_tick := tick;
                it_line := line; it_page := page |} :: rest, st)
        end
    end
  else ([], Exhausted).

End Loop.

(** [Document.get_indexing_queryset], drained for at most [fuel] passes of
    its loop. *)
Definition get_indexing_queryset (fuel : nat) (self : Document)
  (verbose : bool) (filter_ exclude : option Q) (count : option Z)
  (action : CommandAction) : Run :=
  let chunk_size := queryset_pagination (doc_class self) in
  match get_queryset self filter_ exclude count with
  | inl e =>
      {| header := None; iterations := []; footer := None;
         status := Raised e |}
  | inr qs =>
      let qs := indexing_order qs in
      let total := QS.count qs in
      let model := model_name (doc_class self) in
      let action := present_participle_title action in
      let start := clock 0 in
      let '(header, tick) :=
        if verbose then
          let '(eta, tick) := _eta 1%nat start 0 total in
          (Some (progress_line action model "0" eta), tick)
        else (None, 1%nat) in
      let '(its, st) :=
        indexing_loop verbose action model qs chunk_size total start
          fuel 0 0 tick in
      {| header := header; iterations := its;
         footer :=
           match st with
           | Exhausted =>
               if verbose
               then Some (action ++ " " ++ str_of_int total ++ " " ++ model
                          ++ ": OK          " ++ LF)
               else None
           | _ => None
           end;
         status := st |}
  end.

End Progress.

(* ================================================================== *)
(** ** Bulk synchronisation *)
(* ================================================================== *)

(** A bulk action is a dictionary; so are keyword arguments. *)
Definition Action : Type := PyDict.t PyVal.
Definition Kwargs : Type := PyDict.t PyVal.

(** What [bulk] returns: a count and a count or list of failures. *)
Definition Response : Type := (Z * PyVal)%type.

(** What the parallel helper reports for a chunk. *)
Definition ChunkResult : Type := (bool * PyVal)%type.

(** The iterable of actions that [bulk] is given: a list, which can be
    iterated again, or a generator, whose items are gone once it has been
    iterated. *)
Inductive ActionStream : Type :=
| ActionList (items : list Action)
| ActionGenerator (items : list Action).

(** What iterating the stream gives. *)
Definition stream_items (actions : ActionStream) : list Action :=
  match actions with
  | ActionList items | ActionGenerator items => items
  end.

(** The same object once it has been iterated to its end. *)
Definition after_iteration (actions : ActionStream) : ActionStream :=
  match actions with
  | ActionList items => ActionList items
  | ActionGenerator _ => ActionGenerator []
  end.

(** A lazy result stream over a store [S]: nothing happens until a step is
    asked for; each step acts on the store and gives one result. *)
Definition Generator (S R : Type) : Type := list (S -> R * S).

(** The helpers of [opensearchpy.helpers], over the state [S] of the search
    cluster; the connection is the one [_get_connection(using)] resolves.
    A helper iterates the actions it is given to their end; its second
    argument here is what that iteration gives. *)
Class BulkTransport (S : Type) : Type := {
  helpers_bulk : option string -> list Action -> Kwargs -> S -> Response * S;
  helpers_parallel_bulk :
    option string -> list Action -> Kwargs -> Generator S ChunkResult
}.

(** A [post_index] notification.  [sig_actions] is the object passed as
    [actions], in the state it is in when the notification is sent. *)
Record Signal : Type := mkSignal {
  sender : string;
  instance : Document;
  sig_actions : ActionStream;
  sig_response : Response
}.

(** The state outside of the document: the cluster behind the transport
    and the notifications sent so far. *)
Record World (S : Type) : Type := mkWorld {
  cluster : S;
  post_index : list Signal
}.
Arguments mkWorld {S}.
Arguments cluster {S}.
Arguments post_index {S}.

(** Running a generator to its end: the results in order, the final store. *)
Fixpoint run_generator {S R} (gen : Generator S R) (s : S) : list R * S :=
  match gen with
  | [] => ([], s)
  | step :: rest =>
      let '(r, s') := step s in
      let '(rs, s'') := run_generator rest s' in
      (r :: rs, s'')
  end.

(** [deque(gen, maxlen=0)]: every step is taken, no result is kept.  The
    first component is the content of the deque. *)
Fixpoint deque_maxlen0 {S R} (gen : Generator S R) (s : S) : list R * S :=
  match gen with
  | [] => ([], s)
  | step :: rest => let '(_, s') := step s in deque_maxlen0 rest s'
  end.

(** The targets [update] accepts besides a single model instance. *)
Inductive Iterable : Type :=
| PyList (l : list Model)
| PyTuple (l : list Model)
| PyGenerator (l : list Model)
| PyQuerySet (qs : QuerySet).

Inductive Thing : Type :=
| Instance (m : Model)
| Objects (it : Iterable).

(** [for object_instance in object_list] *)
Definition iterate (it : Iterable) : list Model :=
  match it with
  | PyList l | PyTuple l | PyGenerator l => l
  | PyQuerySet qs => QS.evaluate qs
  end.

(** [isinstance(x, list)] *)
Definition is_list (it : Iterable) : bool :=
  match it with PyList _ => true | _ => false end.

(** The first statement of [update] after the defaults:
    [object_list = [thing] if isinstance(thing, models.Model) else thing]. *)
Definition object_list_of (thing : Thing) : Iterable :=
  match thing with
  | Instance m => PyList [m]
  | Objects it => it
  end.

(** The settings read through [DODConfig]. *)
Record DODConfig : Type := mkDODConfig {
  auto_refresh_enabled : bool;
  parallel_enabled : bool
}.

Section Bulk.
Context {S : Type} `{BulkTransport S}.

(** [Document.bulk].  The notification is sent after the transport has
    iterated [actions]: it holds that same object, as the iteration left
    it. *)
Definition bulk (self : Document) (actions : ActionStream)
  (using_ : option string) (kwargs : Kwargs) (w : World S)
  : Response * World S :=
  let '(response, s) :=
    helpers_bulk using_ (stream_items actions) kwargs (cluster w) in
  (response,
   {| cluster := s;
      post_index :=
        post_index w
        ++ [ {| sender := class_name (doc_class self); instance := self;
                sig_actions := after_iteration actions;
                sig_response := response |} ] |}).

(** [Document.parallel_bulk] *)
Definition parallel_bulk (self : Document) (actions : ActionStream)
  (using_ : option string) (kwargs : Kwargs) (w : World S)
  : Response * World S :=
  let kwargs :=
    PyDict.setdefault "chunk_size"
      (VInt (queryset_pagination (doc_class self))) kwargs in
  let bulk_actions :=
    helpers_parallel_bulk using_ (stream_items actions) kwargs in
  let '(_, s) := deque_maxlen0 bulk_actions (cluster w) in
  ((1, VList []), {| cluster := s; post_index := post_index w |}).

(** [Document._bulk] *)
Definition _bulk (self : Document) (actions : ActionStream)
  (parallel : bool) (using_ : option string) (kwargs : Kwargs) (w : World S)
  : Response * World S :=
  if parallel then parallel_bulk self actions using_ kwargs w
  else bulk self actions using_ kwargs w.

(** [Document.update].  [_get_actions] is a generator function: what
    [_bulk] is given is a generator. *)
Definition update (config : DODConfig) (self : Document) (thing : Thing)
  (action : BulkAction) (refresh parallel : option bool)
  (using_ : option string) (kwargs : Kwargs) (w : World S)
  : Response * World S :=
  let refresh :=
    match refresh with
    | None =>
        match Index_auto_refresh (doc_class self) with
        | Some r => r
        | None => auto_refresh_enabled config
        end
    | Some r => r
    end in
  let parallel :=
    match parallel with
    | None => parallel_enabled config
    | Some p => p
    end in
  let object_list := object_list_of thing in
  _bulk self (ActionGenerator (_get_actions self (iterate object_list) action))
    parallel using_
    (PyDict.of_entries (("refresh", VBool refresh) :: kwargs)) w.

End Bulk.

(* ================================================================== *)
(** ** Concrete instances, used to run the definitions *)
(* ================================================================== *)

Module Sample.

(** A [fields] module: dotted paths are kept whole, and a field reads the
    column named by the head of its path. *)
Definition fields_module : FieldsModule :=
  {| attr_path := fun a => [a];
     get_value_from_instance := fun f m _ =>
       match _path f with
       | [] => VNone
       | c :: _ =>
           match PyDict.get c (columns m) with
           | Some v => v
           | None => VNone
           end
       end |}.

Definition title_field : DODField :=
  {| field_class := fields_TextField; attr := None; _path := [] |}.
Definition year_field : DODField :=
  {| field_class := fields_IntegerField; attr := None; _path := [] |}.

Definition book (k : Z) (title : string) (year : Z) : Model :=
  {| pk := k; columns := [("title", VStr title); ("year", VInt year)] |}.

(** Five books, stored in an order that is not the order of their keys. *)
Definition books : list Model :=
  [ book 3 "c" 2003; book 1 "a" 2001; book 5 "e" 2005;
    book 2 "b" 2002; book 4 "d" 2004 ].

Definition BookDocument : DocumentClass :=
  {| class_name := "BookDocument";
     model_name := "Book";
     model_objects := books;
     queryset_pagination := 2;
     index_name := "books";
     Index_auto_refresh := None;
     field_objects := fun ref =>
       if Nat.eqb ref 0 then title_field else year_field;
     _fields := Some [("title", DOD 0%nat); ("year", DOD 1%nat)];
     getattr_prepare := fun name =>
       if String.eqb name "prepare_year"
       then Some (fun m _ => VInt (pk m + 2000))
       else None;
     should_index_object := fun m => 2 <? pk m;
     generate_id := Document_generate_id |}.

Definition doc : Document := @Document__init__ fields_module BookDocument None.

(** Floats as thousandths: fixed-point arithmetic, [round] to the nearest
    integer with ties to the even one. *)
Definition milli_float : PyFloat Z :=
  {| float_of_int := fun z => 1000 * z;
     fsub := Z.sub;
     fdiv := fun a b => a * 1000 / b;
     fmul := fun a b => a * b / 1000;
     pyround := fun x =>
       let q := x / 1000 in
       let r := x mod 1000 in
       if r <? 500 then q
       else if 500 <? r then q + 1
       else if Z.even q then q else q + 1 |}.

(** A clock that advances by one hundred seconds at each reading. *)
Definition clock (n : nat) : Z := 100000 * Z.of_nat n.

Definition indexing : CommandAction :=
  {| present_participle_title := "Indexing" |}.

(** A cluster that records the chunks it received. *)
Definition cluster_log : Type := list (list Action).

Fixpoint chunks (fuel : nat) (n : nat) (l : list Action) : list (list Action) :=
  match fuel, l with
  | O, _ | _, [] => []
  | S fuel', _ => firstn n l :: chunks fuel' n (skipn n l)
  end.

(** A transport whose parallel helper reports every chunk as failed. *)
Definition transport : BulkTransport cluster_log :=
  {| helpers_bulk := fun _ actions _ s =>
       ((Z.of_nat (List.length actions), VList []), (s ++ [actions])%list);
     helpers_parallel_bulk := fun _ actions kwargs =>
       let n :=
         match PyDict.get "chunk_size" kwargs with
         | Some (VInt z) => Z.to_nat z
         | _ => 500%nat
         end in
       map (fun chunk (s : cluster_log) =>
              ((false, VStr "rejected"), (s ++ [chunk])%list))
           (chunks (List.length actions) n actions) |}.

Definition config : DODConfig :=
  {| auto_refresh_enabled := false; parallel_enabled := true |}.

Definition world0 : World cluster_log := {| cluster := []; post_index := [] |}.

End Sample.

(* ================================================================== *)
(** ** Definitions used to state the properties *)
(* ================================================================== *)

(** The payload keys as the specification words them: the payload under
    [doc] for UPDATE, under [_source] for INDEX, and neither key for
    DELETE. *)
Definition payload_keys_as_worded (self : Document) (object_instance : Model)
  (action : BulkAction) : Prop :=
  let d := _prepare_action self object_instance action in
  match action with
  | UPDATE =>
      PyDict.get "doc" d = Some (VDict (prepare self object_instance))
  | INDEX =>
      PyDict.get "_source" d = Some (VDict (prepare self object_instance))
  | DELETE =>
      PyDict.mem "doc" d = false /\ PyDict.mem "_source" d = false
  end.

(** The classes that are keys of the table. *)
Definition mapped_classes : list ModelFieldClass :=
  map fst model_field_class_to_field_class.

(** A field with its own access path, or with the path made of [name] when
    it has none. *)
Definition with_default_path (name : string) (field : DODField) : DODField :=
  match _path field with
  | [] => {| field_class := field_class field; attr := attr field;
             _path := [name] |}
  | _ :: _ => field
  end.

(** The first name, in the order of the entries, under which the object
    behind [ref] is declared. *)
Fixpoint first_name_of (items : list (string * FieldObject)) (ref : nat)
  : option string :=
  match items with
  | [] => None
  | (name, DOD r) :: rest =>
      if Nat.eqb r ref then Some name else first_name_of rest ref
  | (_, ForeignField _) :: rest => first_name_of rest ref
  end.

(** The first name under which the field object declared as [name] is
    declared: [name] itself unless an earlier entry holds the same
    object. *)
Definition first_declared_name (cls : DocumentClass) (name : string)
  : string :=
  match _fields cls with
  | Some d =>
      match PyDict.get name d with
      | Some (DOD ref) =>
          match first_name_of d ref with
          | Some first => first
          | None => name
          end
      | _ => name
      end
  | None => name
  end.

(** A field object as [init_prepare] leaves it, given the entries it goes
    through and the objects it starts from. *)
Definition resolved (items : list (string * FieldObject))
  (objects : nat -> DODField) (ref : nat) : DODField :=
  match first_name_of items ref with
  | Some first => with_default_path first (objects ref)
  | None => objects ref
  end.

(** The extractor chosen for [name], the field object being [field]. *)
Definition extractor_for `{FieldsModule} (cls : DocumentClass)
  (related : option Model) (name : string) (field : DODField)
  : Model -> PyVal :=
  match getattr_prepare cls ("prepare_" ++ name ++ "_with_related") with
  | Some related_aware => fun record => related_aware record (Some related)
  | None =>
      match getattr_prepare cls ("prepare_" ++ name) with
      | Some plain => fun record => plain record None
      | None => fun record => get_value_from_instance field record related
      end
  end.

(** The extractor of a field in the words of the specification: the
    related-aware custom preparer named for the field if there is one, else
    the plain custom preparer named for it if there is one, else the default
    value extraction of the field descriptor.  The descriptor is the field
    object as construction leaves it: with its declared access path, or,
    when it had none, with the first name under which it is declared. *)
Definition extractor_by_priority `{FieldsModule} (cls : DocumentClass)
  (related : option Model) (name : string) (field : DODField)
  : Model -> PyVal :=
  match getattr_prepare cls ("prepare_" ++ name ++ "_with_related") with
  | Some related_aware => fun record => related_aware record (Some related)
  | None =>
      match getattr_prepare cls ("prepare_" ++ name) with
      | Some plain => fun record => plain record None
      | None =>
          fun record =>
            get_value_from_instance
              (with_default_path (first_declared_name cls name) field)
              record related
      end
  end.

(** The names and references of the index fields among the entries of
    [_fields], in their order. *)
Fixpoint index_refs_of (items : list (string * FieldObject))
  : list (string * nat) :=
  match items with
  | [] => []
  | (name, DOD ref) :: rest => (name, ref) :: index_refs_of rest
  | (_, ForeignField _) :: rest => index_refs_of rest
  end.

(** The index fields among the entries of [_fields], in their order. *)
Fixpoint index_fields_of (objects : nat -> DODField)
  (items : list (string * FieldObject)) : list (string * DODField) :=
  match items with
  | [] => []
  | (name, DOD ref) :: rest =>
      (name, objects ref) :: index_fields_of objects rest
  | (_, ForeignField _) :: rest => index_fields_of objects rest
  end.

(** The index fields a document class declares, as they are declared. *)
Definition declared_index_fields (cls : DocumentClass)
  : list (string * DODField) :=
  match _fields cls with
  | Some d => index_fields_of (field_objects cls) (PyDict.items d)
  | None => []
  end.

(** The entries [init_prepare] goes through. *)
Definition index_entries (cls : DocumentClass) : list (string * FieldObject) :=
  match _fields cls with
  | Some d => PyDict.items d
  | None => []
  end.

(** What [init_prepare] computes for the entry of name and reference [nr],
    the field objects being left as [final]. *)
Definition prepared_ref `{FieldsModule} (cls : DocumentClass)
  (related : option Model) (final : nat -> DODField) (nr : string * nat)
  : PreparedField :=
  (fst nr, final (snd nr), extractor_for cls related (fst nr) (final (snd nr))).

(** The same document after its class has been given other attributes. *)
Definition with_class (cls : DocumentClass) (self : Document) : Document :=
  {| doc_class := cls;
     _related_instance_to_ignore := _related_instance_to_ignore self;
     _prepared_fields := _prepared_fields self |}.

(** What [init_prepare] computes for an index field. *)
Definition prepared_entry `{FieldsModule} (cls : DocumentClass)
  (related : option Model) (nf : string * DODField) : PreparedField :=
  (fst nf, with_default_path (first_declared_name cls (fst nf)) (snd nf),
   extractor_by_priority cls related (fst nf) (snd nf)).

(** The value [update] gives [parallel] and [refresh] when they are left
    out. *)
Definition effective_parallel (config : DODConfig) (parallel : option bool)
  : bool :=
  match parallel with
  | Some p => p
  | None => parallel_enabled config
  end.

Definition effective_refresh (config : DODConfig) (self : Document)
  (refresh : option bool) : bool :=
  match refresh with
  | Some r => r
  | None =>
      match Index_auto_refresh (doc_class self) with
      | Some r => r
      | None => auto_refresh_enabled config
      end
  end.

(** The action stream and the keyword arguments [update] hands to [_bulk]. *)
Definition update_actions (self : Document) (thing : Thing)
  (action : BulkAction) : list Action :=
  _get_actions self (iterate (object_list_of thing)) action.

Definition update_kwargs (config : DODConfig) (self : Document)
  (refresh : option bool) (kwargs : Kwargs) : Kwargs :=
  PyDict.of_entries
    (("refresh", VBool (effective_refresh config self refresh)) :: kwargs).

(** The result stream the parallel strategy of [update] asks the transport
    for. *)
Definition update_result_stream {S} `{BulkTransport S} (config : DODConfig)
  (self : Document) (thing : Thing) (action : BulkAction)
  (refresh : option bool) (using_ : option string) (kwargs : Kwargs)
  : Generator S ChunkResult :=
  helpers_parallel_bulk using_ (update_actions self thing action)
    (PyDict.setdefault "chunk_size"
       (VInt (queryset_pagination (doc_class self)))
       (update_kwargs config self refresh kwargs)).

(** The target of [update] in the words of the specification: whatever is
    passed, what the action stream is built from is a list. *)
Definition target_normalized_to_list (thing : Thing) : Prop :=
  is_list (object_list_of thing) = true.

(** Slice limits that make sense: a lower mark that is not negative and an
    upper mark, if any, that is not below it. *)
Definition qs_wf (qs : QuerySet) : Prop :=
  0 <= low_mark qs
  /\ match high_mark qs with
     | Some hm => low_mark qs <= hm
     | None => True
     end.

(** The rows a queryset selects, in the order of the store. *)
Definition selection (qs : QuerySet) : list Model :=
  List.filter (qs_where qs) (qs_rows qs).

(** Ascending primary keys. *)
Definition pk_le (a b : Model) : Prop := pk a <= pk b.

Fixpoint pk_ascending (l : list Model) : bool :=
  match l with
  | [] => true
  | a :: rest =>
      match rest with
      | [] => true
      | b :: _ => (pk a <=? pk b) && pk_ascending rest
      end
  end.

(** [ceil(T / P)] for a positive [P]. *)
Definition pages_needed (T P : Z) : Z := (T + P - 1) / P.

(** The estimate behind a progress line: the time left at the throughput
    so far, rounded to whole seconds. *)
Definition estimate {F} `{PyFloat F} (now start : F) (done total : Z) : Z :=
  pyround (fmul (fdiv (fsub now start) (float_of_int done))
                (float_of_int (total - done))).

(** How an estimate of [e] seconds is shown: in seconds up to 120, in whole
    minutes (the quotient of the seconds by 60) above. *)
Definition eta_text (e : Z) : string :=
  if e <=? 120 then str_of_int e ++ " secs"
  else str_of_int (e / 60) ++ " mins".

(** The number of records [get_indexing_queryset] counts before it starts. *)
Definition indexing_total (self : Document) (filter_ exclude : option Q)
  (count : option Z) : Z :=
  match get_queryset self filter_ exclude count with
  | inr qs => QS.count (indexing_order qs)
  | inl _ => 0
  end.

(** The number of records yielded before pass [k] of the loop. *)
Definition processed_before {F} `{PyFloat F} (its : list Iteration) (k : nat)
  : Z :=
  Z.of_nat (List.length (List.concat (map it_page (firstn k its)))).

(** The chunker in the words of the specification: the generator runs to
    its end and has yielded its records by ascending primary key. *)
Definition yields_in_pk_order {F} `{PyFloat F} (r : Run) : Prop :=
  status r = Exhausted /\ pk_ascending (yielded r) = true.

(** Whether a row passes the filter and is not excluded; an absent
    condition filters nothing, respectively excludes nothing. *)
Definition keeps (filter_ exclude : option Q) (m : Model) : bool :=
  match filter_ with Some f => f m | None => true end
  && negb (match exclude with Some e => e m | None => false end).

(** The key under which a descriptor carries its payload. *)
Definition payload_key (action : BulkAction) : string :=
  match action with
  | UPDATE => "doc"
  | INDEX | DELETE => "_source"
  end.

(** Whether [_get_actions] keeps a record. *)
Definition retained (self : Document) (action : BulkAction) (o : Model)
  : bool :=
  match action with
  | DELETE => true
  | INDEX | UPDATE => should_index_object (doc_class self) o
  end.

(** A document class with another page size. *)
Definition with_pagination (p : Z) (cls : DocumentClass) : DocumentClass :=
  {| class_name := class_name cls;
     model_name := model_name cls;
     model_objects := model_objects cls;
     queryset_pagination := p;
     index_name := index_name cls;
     Index_auto_refresh := Index_auto_refresh cls;
     field_objects := field_objects cls;
     _fields := _fields cls;
     getattr_prepare := getattr_prepare cls;
     should_index_object := should_index_object cls;
     generate_id := generate_id cls |}.

(** A document class with other index fields, or none. *)
Definition with_fields (fields : option (PyDict.t FieldObject))
  (cls : DocumentClass) : DocumentClass :=
  {| class_name := class_name cls;
     model_name := model_name cls;
     model_objects := model_objects cls;
     queryset_pagination := queryset_pagination cls;
     index_name := index_name cls;
     Index_auto_refresh := Index_auto_refresh cls;
     field_objects := field_objects cls;
     _fields := fields;
     getattr_prepare := getattr_prepare cls;
     should_index_object := should_index_object cls;
     generate_id := generate_id cls |}.

(** A document class whose two index fields are one field object, declared
    under two names ([title = heading = fields.TextField()]). *)
Definition SharedFieldDocument : DocumentClass :=
  with_fields (Some [("title", DOD 0%nat); ("heading", DOD 0%nat)])
    Sample.BookDocument.

(** The estimate shown in the words of the specification: [~] until a
    record is done; then the estimate in seconds when it is at most 120,
    and otherwise the estimate in minutes, rounded. *)
Definition eta_as_worded {F} `{PyFloat F} (now start : F) (done total : Z)
  : string :=
  if done =? 0 then "~"
  else
    let seconds :=
      fmul (fdiv (fsub now start) (float_of_int done))
           (float_of_int (total - done)) in
    if pyround seconds <=? 120 then str_of_int (pyround seconds) ++ " secs"
    else str_of_int (pyround (fdiv seconds (float_of_int 60))) ++ " mins".

(* ================================================================== *)
(** ** Dictionaries: insertion and lookup *)
(* ================================================================== *)

Lemma PyDict_set_fresh {V} (k : string) (v : V) (d : PyDict.t V) :
  ~ In k (PyDict.keys d) -> PyDict.set k v d = (d ++ [(k, v)])%list.
Proof.
  induction d as [|[k' v'] d IH]; simpl; intros Hk; [reflexivity|].
  destruct (String.eqb_spec k k') as [->|Hne].
  - exfalso. apply Hk. now left.
  - rewrite IH; [reflexivity|]. intros Hin. apply Hk. now right.
Qed.

Lemma PyDict_fold_set_nodup {V} (entries acc : PyDict.t V) :
  NoDup (PyDict.keys (acc ++ entries)%list) ->
  fold_left (fun d kv => PyDict.set (fst kv) (snd kv) d) entries acc
  = (acc ++ entries)%list.
Proof.
  revert acc. induction entries as [|[k v] entries IH]; intros acc Hnd; simpl.
  - now rewrite app_nil_r.
  - assert (Hfresh : ~ In k (PyDict.keys acc)).
    { unfold PyDict.keys in *. rewrite map_app in Hnd. simpl in Hnd.
      apply NoDup_remove_2 in Hnd. intros Hin. apply Hnd.
      apply in_or_app. now left. }
    rewrite (PyDict_set_fresh k v acc Hfresh).
    rewrite IH; rewrite <- app_assoc; simpl; [reflexivity | exact Hnd].
Qed.

(** Storing entries with distinct keys keeps them as they come. *)
Lemma PyDict_of_entries_nodup {V} (entries : list (string * V)) :
  NoDup (map fst entries) -> PyDict.of_entries entries = entries.
Proof.
  intros Hnd. unfold PyDict.of_entries, PyDict.empty.
  now rewrite PyDict_fold_set_nodup.
Qed.

Lemma PyDict_get_In {V} (k : string) (v : V) (d : PyDict.t V) :
  NoDup (PyDict.keys d) -> In (k, v) d -> PyDict.get k d = Some v.
Proof.
  induction d as [|[k' v'] d IH]; simpl; intros Hnd Hin; [contradiction|].
  inversion Hnd as [|? ? Hnotin Hnd']; subst.
  destruct Hin as [Heq|Hin].
  - inversion Heq; subst. now rewrite String.eqb_refl.
  - destruct (String.eqb_spec k k') as [->|Hne]; [|now apply IH].
    exfalso. apply Hnotin. unfold PyDict.keys.
    change k' with (fst (k', v)). now apply in_map.
Qed.

(* ================================================================== *)
(** ** Action descriptors *)
(* ================================================================== *)

(** C1, as worded, fails: the descriptor of a DELETE action has the key
    [_source]. *)
Lemma delete_action_has_source_key :
  ~ payload_keys_as_worded Sample.doc (Sample.book 7 "x" 1999) DELETE.
Proof.
  unfold payload_keys_as_worded. intros [_ Hsrc]. vm_compute in Hsrc.
  discriminate Hsrc.
Qed.

(** C1 (amended): whatever the document and the record, the descriptor of an
    UPDATE action carries the prepared payload under [doc] and has no
    [_source]; that of an INDEX action carries it under [_source] and has no
    [doc]; that of a DELETE action has no [doc] key and maps [_source] to
    [None], so that it carries no payload. *)
Theorem prepare_action_payload_key (self : Document) (object_instance : Model) :
  (PyDict.get "doc" (_prepare_action self object_instance UPDATE)
     = Some (VDict (prepare self object_instance))
   /\ PyDict.mem "_source" (_prepare_action self object_instance UPDATE) = false)
  /\ (PyDict.get "_source" (_prepare_action self object_instance INDEX)
        = Some (VDict (prepare self object_instance))
      /\ PyDict.mem "doc" (_prepare_action self object_instance INDEX) = false)
  /\ (PyDict.get "_source" (_prepare_action self object_instance DELETE)
        = Some VNone
      /\ PyDict.mem "doc" (_prepare_action self object_instance DELETE) = false).
Proof.
  repeat split; reflexivity.
Qed.

(** The identifier of a descriptor is what [generate_id] gives, the primary
    key when the method is not overridden. *)
Lemma prepare_action_id (self : Document) (object_instance : Model)
  (action : BulkAction) :
  PyDict.get "_id" (_prepare_action self object_instance action)
  = Some (generate_id (doc_class self) object_instance).
Proof. destruct action; reflexivity. Qed.

Lemma prepare_action_op_type (self : Document) (object_instance : Model)
  (action : BulkAction) :
  PyDict.get "_op_type" (_prepare_action self object_instance action)
  = Some (VStr (BulkAction_value action)).
Proof. destruct action; reflexivity. Qed.

(* ================================================================== *)
(** ** Action streams *)
(* ================================================================== *)

Lemma get_actions_app (self : Document) (l1 l2 : list Model)
  (action : BulkAction) :
  _get_actions self (l1 ++ l2) action
  = (_get_actions self l1 action ++ _get_actions self l2 action)%list.
Proof.
  induction l1 as [|x l1 IH]; simpl; [reflexivity|].
  destruct (action_eq action "delete" || should_index_object (doc_class self) x);
    simpl; now rewrite IH.
Qed.

(** C3: a record for which [should_index_object] is false adds nothing to an
    INDEX or UPDATE action stream, wherever it stands in the list of
    records; in a DELETE stream every record gives its descriptor, in
    place, whatever the predicate says of it. *)
Theorem get_actions_indexability (self : Document) (before after : list Model)
  (r : Model) (action : BulkAction) :
  (should_index_object (doc_class self) r = false ->
   action <> DELETE ->
   _get_actions self (before ++ r :: after) action
   = (_get_actions self before action ++ _get_actions self after action)%list)
  /\ _get_actions self (before ++ r :: after) DELETE
     = (_get_actions self before DELETE
        ++ _prepare_action self r DELETE :: _get_actions self after DELETE)%list.
Proof.
  split.
  - intros Hno Hact. rewrite get_actions_app. simpl. rewrite Hno.
    destruct action; [reflexivity | reflexivity | congruence].
  - rewrite get_actions_app. reflexivity.
Qed.

Lemma get_actions_indexability_witness :
  should_index_object (doc_class Sample.doc) (Sample.book 1 "a" 2001) = false
  /\ _get_actions Sample.doc
       ([Sample.book 3 "c" 2003] ++ Sample.book 1 "a" 2001 :: [Sample.book 5 "e" 2005])
       INDEX
     = (_get_actions Sample.doc [Sample.book 3 "c" 2003] INDEX
        ++ _get_actions Sample.doc [Sample.book 5 "e" 2005] INDEX)%list.
Proof.
  split; [reflexivity|].
  apply (get_actions_indexability Sample.doc [Sample.book 3 "c" 2003]
           [Sample.book 5 "e" 2005] (Sample.book 1 "a" 2001) INDEX);
    [reflexivity | discriminate].
Defined.

(** With the predicate of the base class every record gives its action. *)
Lemma get_actions_default (self : Document) (object_list : list Model)
  (action : BulkAction) :
  should_index_object (doc_class self) = Document_should_index_object ->
  _get_actions self object_list action
  = map (fun o => _prepare_action self o action) object_list.
Proof.
  intros Hdef. induction object_list as [|o l IH]; simpl; [reflexivity|].
  rewrite Hdef, orb_true_r. now rewrite IH.
Qed.

(** When [generate_id] is the one of the base class, the identifier of a
    descriptor is the primary key of the record. *)
Lemma prepare_action_default_id (self : Document) (object_instance : Model)
  (action : BulkAction) :
  generate_id (doc_class self) = Document_generate_id ->
  PyDict.get "_id" (_prepare_action self object_instance action)
  = Some (VInt (pk object_instance)).
Proof.
  intros Hdef. rewrite prepare_action_id, Hdef. reflexivity.
Qed.

(* ================================================================== *)
(** ** Field mapping *)
(* ================================================================== *)

Lemma ModelFieldClass_eqb_eq (a b : ModelFieldClass) :
  ModelFieldClass_eqb a b = true <-> a = b.
Proof.
  revert b. induction a as [ | | | | | | | | | | | | | | | | | | | | | | | | | | | | | | | | n base IH];
    intros b; destruct b; simpl; split; intros Heq;
    try reflexivity; try discriminate Heq.
  - apply andb_true_iff in Heq. destruct Heq as [Hn Hb].
    apply String.eqb_eq in Hn. apply IH in Hb. now subst.
  - inversion Heq; subst. apply andb_true_iff. split.
    + apply String.eqb_refl.
    + now apply IH.
Qed.

Lemma mapped_classes_distinct : NoDup mapped_classes.
Proof.
  unfold mapped_classes. simpl.
  repeat (constructor; [simpl; intuition discriminate|]).
  constructor.
Qed.

Lemma table_lookup_In (table : list (ModelFieldClass * FieldClass))
  (cls : ModelFieldClass) (v : FieldClass) :
  NoDup (map fst table) ->
  In (cls, v) table -> table_lookup table cls = Some v.
Proof.
  induction table as [|[k w] table IH]; simpl; intros Hnd Hin; [contradiction|].
  inversion Hnd as [|? ? Hnotin Hnd']; subst.
  destruct Hin as [Heq|Hin].
  - inversion Heq; subst.
    now rewrite (proj2 (ModelFieldClass_eqb_eq cls cls) eq_refl).
  - destruct (ModelFieldClass_eqb k cls) eqn:E; [|now apply IH].
    apply ModelFieldClass_eqb_eq in E. subst k.
    exfalso. apply Hnotin. change cls with (fst (cls, v)). now apply in_map.
Qed.

Lemma table_lookup_not_key (table : list (ModelFieldClass * FieldClass))
  (cls : ModelFieldClass) :
  ~ In cls (map fst table) -> table_lookup table cls = None.
Proof.
  induction table as [|[k w] table IH]; simpl; intros Hnotin; [reflexivity|].
  destruct (ModelFieldClass_eqb k cls) eqn:E.
  - apply ModelFieldClass_eqb_eq in E. exfalso. apply Hnotin. now left.
  - apply IH. intros Hin. apply Hnotin. now right.
Qed.

Lemma subclass_not_mapped (name : string) (base : ModelFieldClass) :
  ~ In (Subclass name base) mapped_classes.
Proof.
  unfold mapped_classes. simpl. intuition discriminate.
Qed.

(** C4: when the concrete class of the model field is a key of the table,
    [to_field] returns a field whose class is the one the table gives for
    that key and which is constructed with [attr=field_name]; when the class
    is not a key, [to_field] raises [ModelFieldNotMappedError] with a message
    that names the field.  The match is on the class itself: a subclass of
    a key, which is not a key, is not mapped. *)
Theorem to_field_mapping `{FieldsModule} (field_name : string)
  (model_field : ModelField) :
  (forall cls : FieldClass,
     In (__class__ model_field, cls) model_field_class_to_field_class ->
     to_field field_name model_field = inr (DODField_new cls field_name)
     /\ field_class (DODField_new cls field_name) = cls
     /\ attr (DODField_new cls field_name) = Some field_name)
  /\ (~ In (__class__ model_field) mapped_classes ->
      to_field field_name model_field
      = inl (ModelFieldNotMappedError
               ("Cannot convert model field " ++ field_name
                ++ " to an Opensearch field!")))
  /\ (forall name base, __class__ model_field = Subclass name base ->
      exists msg, to_field field_name model_field
                  = inl (ModelFieldNotMappedError msg)).
Proof.
  split; [|split].
  - intros cls Hin. split; [|split; reflexivity].
    unfold to_field.
    now rewrite (table_lookup_In _ _ _ mapped_classes_distinct Hin).
  - intros Hnot. unfold to_field.
    now rewrite (table_lookup_not_key _ _ Hnot).
  - intros name base Hcls. eexists. unfold to_field. rewrite Hcls.
    rewrite (table_lookup_not_key _ _ (subclass_not_mapped name base)).
    reflexivity.
Qed.

Lemma to_field_mapping_witness :
  In (CharField, fields_TextField) model_field_class_to_field_class
  /\ @to_field Sample.fields_module "title"
       {| __class__ := CharField; column_name := "title" |}
     = inr (@DODField_new Sample.fields_module fields_TextField "title").
Proof.
  assert (Hin : In (CharField, fields_TextField)
                  model_field_class_to_field_class).
  { simpl. do 4 right. now left. }
  split; [exact Hin|].
  exact (proj1 (proj1 (@to_field_mapping Sample.fields_module "title"
                         {| __class__ := CharField; column_name := "title" |})
                  fields_TextField Hin)).
Defined.

(* ================================================================== *)
(** ** Document preparation *)
(* ================================================================== *)

Section PrepareFacts.
Context `{FieldsModule}.

Lemma with_default_path_nonempty (name : string) (field : DODField) :
  _path (with_default_path name field) <> [].
Proof.
  unfold with_default_path.
  destruct (_path field) eqn:Hp; simpl; rewrite ?Hp; discriminate.
Qed.

Lemma with_default_path_kept (name : string) (field : DODField) :
  _path field <> [] -> with_default_path name field = field.
Proof.
  unfold with_default_path. destruct (_path field); [congruence|reflexivity].
Qed.

Lemma with_default_path_idem (name first : string) (field : DODField) :
  with_default_path name (with_default_path first field)
  = with_default_path first field.
Proof. apply with_default_path_kept, with_default_path_nonempty. Qed.

Lemma first_name_of_app (l1 l2 : list (string * FieldObject)) (ref : nat) :
  first_name_of (l1 ++ l2) ref
  = match first_name_of l1 ref with
    | Some first => Some first
    | None => first_name_of l2 ref
    end.
Proof.
  induction l1 as [|[n [r|d]] l1 IH]; simpl; [reflexivity| |exact IH].
  destruct (Nat.eqb r ref); [reflexivity|exact IH].
Qed.

Lemma first_name_of_In (items : list (string * FieldObject)) (name : string)
  (ref : nat) :
  In (name, DOD ref) items -> exists first, first_name_of items ref = Some first.
Proof.
  induction items as [|[n [r|d]] items IH]; simpl; intros Hin; [contradiction| |].
  - destruct (Nat.eqb_spec r ref) as [->|Hne]; [now eexists|].
    destruct Hin as [Heq|Hin]; [inversion Heq; congruence | now apply IH].
  - destruct Hin as [Heq|Hin]; [discriminate Heq | now apply IH].
Qed.

Lemma index_refs_of_In (items : list (string * FieldObject)) (name : string)
  (ref : nat) :
  In (name, ref) (index_refs_of items) <-> In (name, DOD ref) items.
Proof.
  induction items as [|[n [r|d]] items IH]; simpl; [tauto| |].
  - rewrite IH. split; intros [Heq|Hin]; auto; left; inversion Heq; reflexivity.
  - rewrite IH. split; [auto|]. intros [Heq|Hin]; [discriminate Heq|exact Hin].
Qed.

Lemma index_fields_of_refs (objects : nat -> DODField)
  (items : list (string * FieldObject)) :
  index_fields_of objects items
  = map (fun nr : string * nat => (fst nr, objects (snd nr)))
      (index_refs_of items).
Proof.
  induction items as [|[n [r|d]] items IH]; simpl; [reflexivity| |exact IH].
  now rewrite IH.
Qed.

(** Writing to the object of an entry keeps the objects as the entries gone
    through so far leave them. *)
Lemma resolved_snoc (done : list (string * FieldObject))
  (objects0 objects : nat -> DODField) (name : string) (ref : nat) :
  (forall r, objects r = resolved done objects0 r) ->
  forall r,
    (if Nat.eqb r ref then with_default_path name (objects ref) else objects r)
    = resolved (done ++ [(name, DOD ref)]) objects0 r.
Proof.
  intros Hinv r. unfold resolved. rewrite first_name_of_app. simpl.
  destruct (Nat.eqb_spec r ref) as [->|Hne].
  - rewrite Hinv. unfold resolved.
    destruct (first_name_of done ref);
      [apply with_default_path_idem | now rewrite Nat.eqb_refl].
  - rewrite Hinv. unfold resolved.
    destruct (first_name_of done r); [reflexivity|].
    destruct (Nat.eqb_spec ref r); [congruence|reflexivity].
Qed.

(** The loop, entry by entry: each index field is prepared with its field
    object as the whole loop leaves it. *)
Lemma init_prepare_loop_spec (self : Document)
  (all : list (string * FieldObject)) (objects0 : nat -> DODField) :
  forall (rest done : list (string * FieldObject))
         (objects : nat -> DODField) (preparers : list PreparedField),
    all = (done ++ rest)%list ->
    (forall r, objects r = resolved done objects0 r) ->
    fst (init_prepare_loop self rest objects preparers)
    = (preparers
       ++ map (prepared_ref (doc_class self) (_related_instance_to_ignore self)
                 (resolved all objects0))
            (index_refs_of rest))%list
    /\ (forall r,
          snd (init_prepare_loop self rest objects preparers) r
          = resolved all objects0 r).
Proof.
  induction rest as [|[name [ref|descr]] rest IH];
    intros done objects preparers Hall Hinv.
  - simpl. rewrite app_nil_r in *. subst all. split; [reflexivity|exact Hinv].
  - assert (Hall' : all = ((done ++ [(name, DOD ref)]) ++ rest)%list)
      by (now rewrite <- app_assoc).
    pose proof (resolved_snoc done objects0 objects name ref Hinv) as Hsnoc.
    assert (Hfield : with_default_path name (objects ref)
                     = resolved all objects0 ref).
    { pose proof (Hsnoc ref) as Hs. rewrite Nat.eqb_refl in Hs. rewrite Hs.
      unfold resolved.
      rewrite Hall', (first_name_of_app (done ++ [(name, DOD ref)]) rest).
      destruct (first_name_of (done ++ [(name, DOD ref)]) ref) eqn:E;
        [reflexivity|].
      rewrite first_name_of_app in E. simpl in E. rewrite Nat.eqb_refl in E.
      destruct (first_name_of done ref); discriminate E. }
    cbn [init_prepare_loop].
    destruct (_path (objects ref)) eqn:Hp.
    + assert (Hnew : {| field_class := field_class (objects ref);
                        attr := attr (objects ref); _path := [name] |}
                     = resolved all objects0 ref).
      { rewrite <- Hfield. unfold with_default_path. now rewrite Hp. }
      destruct (IH (done ++ [(name, DOD ref)])%list
                  (set_object ref
                     {| field_class := field_class (objects ref);
                        attr := attr (objects ref); _path := [name] |}
                     objects)
                  (preparers
                   ++ [(name,
                        {| field_class := field_class (objects ref);
                           attr := attr (objects ref); _path := [name] |},
                        extractor_for (doc_class self)
                          (_related_instance_to_ignore self) name
                          {| field_class := field_class (objects ref);
                             attr := attr (objects ref);
                             _path := [name] |})])%list Hall')
        as (Hfst & Hsnd).
      { intros r. rewrite <- Hsnoc. unfold set_object, with_default_path.
        now rewrite Hp. }
      split; [|exact Hsnd].
      etransitivity; [exact Hfst|].
      rewrite <- app_assoc. simpl. unfold prepared_ref at 2. simpl.
      now rewrite Hnew.
    + assert (Hsame : objects ref = resolved all objects0 ref).
      { rewrite <- Hfield. unfold with_default_path. now rewrite Hp. }
      destruct (IH (done ++ [(name, DOD ref)])%list objects
                  (preparers
                   ++ [(name, objects ref,
                        extractor_for (doc_class self)
                          (_related_instance_to_ignore self) name
                          (objects ref))])%list Hall')
        as (Hfst & Hsnd).
      { intros r. rewrite <- Hsnoc.
        destruct (Nat.eqb_spec r ref) as [->|Hne]; [|reflexivity].
        unfold with_default_path. now rewrite Hp. }
      split; [|exact Hsnd].
      etransitivity; [exact Hfst|].
      rewrite <- app_assoc. simpl. unfold prepared_ref at 2. simpl.
      now rewrite Hsame.
  - cbn [init_prepare_loop index_refs_of].
    apply (IH (done ++ [(name, ForeignField descr)])%list).
    + now rewrite <- app_assoc.
    + intros r. rewrite Hinv. unfold resolved.
      rewrite first_name_of_app. simpl.
      now destruct (first_name_of done r).
Qed.

Lemma prepared_fields_by_ref (cls : DocumentClass) (related : option Model) :
  _prepared_fields (Document__init__ cls related)
  = map (prepared_ref cls related
           (resolved (index_entries cls) (field_objects cls)))
      (index_refs_of (index_entries cls))
  /\ (forall r,
        field_objects (doc_class (Document__init__ cls related)) r
        = resolved (index_entries cls) (field_objects cls) r).
Proof.
  unfold Document__init__, init_prepare, index_entries. cbn [_prepared_fields
    doc_class field_objects with_field_objects _related_instance_to_ignore].
  destruct (init_prepare_loop_spec
              {| doc_class := cls; _related_instance_to_ignore := related;
                 _prepared_fields := [] |}
              (match _fields cls with Some d => d | None => PyDict.empty end)
              (field_objects cls)
              (match _fields cls with Some d => d | None => PyDict.empty end)
              [] (field_objects cls) [] eq_refl) as (Hfst & Hsnd).
  { intros r. reflexivity. }
  split.
  - etransitivity; [exact Hfst|]. simpl. destruct (_fields cls); reflexivity.
  - intros r. etransitivity; [exact (Hsnd r)|].
    destruct (_fields cls); reflexivity.
Qed.

Lemma declared_index_fields_refs (cls : DocumentClass) :
  declared_index_fields cls
  = map (fun nr : string * nat => (fst nr, field_objects cls (snd nr)))
      (index_refs_of (index_entries cls)).
Proof.
  unfold declared_index_fields, index_entries.
  destruct (_fields cls); [apply index_fields_of_refs|reflexivity].
Qed.

(** When the names are distinct, the object of an entry is left with its
    declared path or with the first name under which it is declared. *)
Lemma resolved_by_name (cls : DocumentClass) (name : string) (ref : nat) :
  (forall d, _fields cls = Some d -> PyDict.wf d) ->
  In (name, ref) (index_refs_of (index_entries cls)) ->
  resolved (index_entries cls) (field_objects cls) ref
  = with_default_path (first_declared_name cls name) (field_objects cls ref).
Proof.
  intros Hwf Hin. apply index_refs_of_In in Hin.
  unfold index_entries, first_declared_name, resolved in *.
  destruct (_fields cls) as [d|]; [|contradiction].
  rewrite (PyDict_get_In name (DOD ref) d (Hwf d eq_refl) Hin).
  destruct (first_name_of_In d name ref Hin) as [first Hfirst].
  unfold PyDict.items. now rewrite Hfirst.
Qed.

Lemma prepared_fields_of_new (cls : DocumentClass) (related : option Model) :
  (forall d, _fields cls = Some d -> PyDict.wf d) ->
  _prepared_fields (Document__init__ cls related)
  = map (prepared_entry cls related) (declared_index_fields cls).
Proof.
  intros Hwf. rewrite (proj1 (prepared_fields_by_ref cls related)).
  rewrite declared_index_fields_refs, map_map.
  apply map_ext_in. intros [name ref] Hin.
  unfold prepared_ref, prepared_entry. cbn [fst snd].
  rewrite (resolved_by_name cls name ref Hwf Hin). reflexivity.
Qed.

Lemma index_fields_of_keys_incl (objects : nat -> DODField)
  (items : list (string * FieldObject)) (name : string) :
  In name (map fst (index_fields_of objects items)) -> In name (map fst items).
Proof.
  induction items as [|[n [f|d]] items IH]; simpl; intuition.
Qed.

Lemma index_fields_of_nodup (objects : nat -> DODField)
  (items : list (string * FieldObject)) :
  NoDup (map fst items) -> NoDup (map fst (index_fields_of objects items)).
Proof.
  induction items as [|[n [f|d]] items IH]; simpl; intros Hnd.
  - constructor.
  - inversion Hnd; subst. constructor; [|now apply IH].
    intros Hin. now apply index_fields_of_keys_incl in Hin.
  - inversion Hnd; subst. now apply IH.
Qed.

(** When every entry of [_fields] is a [DODField], as the annotation of
    [init_prepare] has it, the index fields are all the entries. *)
Lemma index_fields_of_all_dod (objects : nat -> DODField)
  (items : list (string * FieldObject)) :
  (forall name o, In (name, o) items -> exists ref, o = DOD ref) ->
  map fst (index_fields_of objects items) = map fst items.
Proof.
  induction items as [|[n [f|d]] items IH]; simpl; intros Hall.
  - reflexivity.
  - f_equal. apply IH. intros name o Hin. apply (Hall name o). now right.
  - destruct (Hall n (ForeignField d) (or_introl eq_refl)) as [f Hf].
    discriminate Hf.
Qed.

Lemma declared_index_fields_nodup (cls : DocumentClass) :
  (forall d, _fields cls = Some d -> PyDict.wf d) ->
  NoDup (map fst (declared_index_fields cls)).
Proof.
  intros Hwf. unfold declared_index_fields.
  destruct (_fields cls) as [d|]; [|constructor].
  apply index_fields_of_nodup. now apply Hwf.
Qed.

(** The payload of a new document, entry by entry. *)
Lemma prepare_of_new (cls : DocumentClass) (related : option Model)
  (record : Model) :
  (forall d, _fields cls = Some d -> PyDict.wf d) ->
  prepare (Document__init__ cls related) record
  = map (fun nf : string * DODField =>
           (fst nf,
            extractor_by_priority cls related (fst nf) (snd nf) record))
      (declared_index_fields cls).
Proof.
  intros Hwf. unfold prepare.
  rewrite (prepared_fields_of_new cls related Hwf), map_map.
  unfold prepared_entry. simpl.
  apply PyDict_of_entries_nodup. rewrite map_map. simpl.
  now apply declared_index_fields_nodup.
Qed.

(** C5: a document constructed for a class whose [_fields] dictionary
    declares N index fields prepares, for every record, a mapping whose keys
    are exactly the names of those N fields in their declared order; the
    value under each name is what the extractor chosen by the priority
    (related-aware custom preparer, plain custom preparer, default
    extraction of the field) gives on the record.  The extractors are those
    stored at construction: later changes of the class attributes do not
    change the payload. *)
Theorem prepare_keys_and_values (cls : DocumentClass) (related : option Model)
  (record : Model) :
  (forall d, _fields cls = Some d -> PyDict.wf d) ->
  let self := Document__init__ cls related in
  PyDict.keys (prepare self record) = map fst (declared_index_fields cls)
  /\ List.length (prepare self record)
     = List.length (declared_index_fields cls)
  /\ (forall name field,
        In (name, field) (declared_index_fields cls) ->
        PyDict.get name (prepare self record)
        = Some (extractor_by_priority cls related name field record))
  /\ (forall cls', prepare (with_class cls' self) record = prepare self record).
Proof.
  intros Hwf self.
  assert (Hp := prepare_of_new cls related record Hwf). fold self in Hp.
  split; [|split; [|split]].
  - rewrite Hp. unfold PyDict.keys. now rewrite map_map.
  - rewrite Hp. now rewrite length_map.
  - intros name field Hin. rewrite Hp. apply PyDict_get_In.
    + unfold PyDict.keys. rewrite map_map. simpl.
      now apply declared_index_fields_nodup.
    + apply (in_map (fun nf : string * DODField =>
               (fst nf,
                extractor_by_priority cls related (fst nf) (snd nf) record)))
        in Hin.
      exact Hin.
  - intros cls'. reflexivity.
Qed.

End PrepareFacts.

Lemma prepare_keys_and_values_witness :
  (forall d, _fields Sample.BookDocument = Some d -> PyDict.wf d)
  /\ PyDict.keys (prepare Sample.doc (Sample.book 7 "x" 1999))
     = ["title"; "year"].
Proof.
  assert (Hwf : forall d, _fields Sample.BookDocument = Some d -> PyDict.wf d).
  { intros d Hd. inversion Hd; subst. unfold PyDict.wf. simpl.
    repeat (constructor; [simpl; intuition discriminate|]). constructor. }
  split; [exact Hwf|].
  exact (proj1 (@prepare_keys_and_values Sample.fields_module
                  Sample.BookDocument None (Sample.book 7 "x" 1999) Hwf)).
Defined.

(* ================================================================== *)
(** ** Bulk dispatch *)
(* ================================================================== *)

Lemma run_generator_length {S R} (gen : Generator S R) (s : S) :
  List.length (fst (run_generator gen s)) = List.length gen.
Proof.
  revert s. induction gen as [|step gen IH]; intros s; simpl; [reflexivity|].
  destruct (step s) as [r s']. specialize (IH s').
  destruct (run_generator gen s') as [rs s'']. simpl in *. now rewrite IH.
Qed.

(** Draining into a deque of length zero takes every step of the stream,
    in order, and keeps nothing. *)
Lemma deque_maxlen0_spec {S R} (gen : Generator S R) (s : S) :
  deque_maxlen0 gen s = ([], snd (run_generator gen s)).
Proof.
  revert s. induction gen as [|step gen IH]; intros s; simpl; [reflexivity|].
  destruct (step s) as [r s']. rewrite IH.
  now destruct (run_generator gen s').
Qed.

Section BulkFacts.
Context {S : Type} `{BulkTransport S}.

Lemma parallel_bulk_spec (self : Document) (actions : ActionStream)
  (using_ : option string) (kwargs : Kwargs) (w : World S) :
  parallel_bulk self actions using_ kwargs w
  = ((1, VList []),
     {| cluster :=
          snd (run_generator
                 (helpers_parallel_bulk using_ (stream_items actions)
                    (PyDict.setdefault "chunk_size"
                       (VInt (queryset_pagination (doc_class self))) kwargs))
                 (cluster w));
        post_index := post_index w |}).
Proof.
  unfold parallel_bulk. now rewrite deque_maxlen0_spec.
Qed.

Lemma update_unfold (config : DODConfig) (self : Document) (thing : Thing)
  (action : BulkAction) (refresh parallel : option bool)
  (using_ : option string) (kwargs : Kwargs) (w : World S) :
  update config self thing action refresh parallel using_ kwargs w
  = _bulk self (ActionGenerator (update_actions self thing action))
      (effective_parallel config parallel) using_
      (update_kwargs config self refresh kwargs) w.
Proof.
  unfold update, update_actions, update_kwargs, effective_parallel,
    effective_refresh.
  destruct refresh, parallel; reflexivity.
Qed.

(** C6: whatever the target, the action and the transport (hence whatever
    the transport reports for each chunk), a call of [update] that runs in
    parallel mode returns the pair [(1, [])]; the cluster it leaves is the
    one reached once every step of the transport's lazy result stream has
    been taken, each of them once. *)
Theorem parallel_update_placeholder (config : DODConfig) (self : Document)
  (thing : Thing) (action : BulkAction) (refresh parallel : option bool)
  (using_ : option string) (kwargs : Kwargs) (w : World S) :
  effective_parallel config parallel = true ->
  let stream :=
    update_result_stream config self thing action refresh using_ kwargs in
  let result :=
    update config self thing action refresh parallel using_ kwargs w in
  fst result = (1, VList [])
  /\ cluster (snd result) = snd (run_generator stream (cluster w))
  /\ List.length (fst (run_generator stream (cluster w))) = List.length stream.
Proof.
  intros Hpar stream result. unfold result, stream.
  rewrite update_unfold, Hpar. unfold _bulk. rewrite parallel_bulk_spec.
  simpl. repeat split. apply run_generator_length.
Qed.

Lemma bulk_spec (self : Document) (actions : ActionStream)
  (using_ : option string) (kwargs : Kwargs) (w : World S) :
  fst (bulk self actions using_ kwargs w)
  = fst (helpers_bulk using_ (stream_items actions) kwargs (cluster w))
  /\ cluster (snd (bulk self actions using_ kwargs w))
     = snd (helpers_bulk using_ (stream_items actions) kwargs (cluster w))
  /\ post_index (snd (bulk self actions using_ kwargs w))
     = (post_index w
        ++ [ {| sender := class_name (doc_class self);
                instance := self;
                sig_actions := after_iteration actions;
                sig_response :=
                  fst (helpers_bulk using_ (stream_items actions) kwargs
                         (cluster w)) |} ])%list.
Proof.
  unfold bulk.
  destruct (helpers_bulk using_ (stream_items actions) kwargs (cluster w))
    as [response s].
  repeat split.
Qed.

(** C10: a call of [bulk] returns the response of the transport and adds
    one notification to those sent, and only one; it carries the class of
    the document, the document, the action stream it was given (that same
    object, as the transport's iteration left it: a list in full, a
    generator exhausted) and the response of the transport.  A call of
    [parallel_bulk] sends none, and so a call of [update] that runs in
    parallel mode sends none; one that runs in sequential mode sends
    exactly the one of its call of [bulk], with the generator of its
    actions and the response of the transport for them. *)
Theorem post_index_notification (config : DODConfig) (self : Document)
  (actions : ActionStream) (thing : Thing) (action : BulkAction)
  (refresh parallel : option bool) (using_ : option string)
  (kwargs : Kwargs) (w : World S) :
  (fst (bulk self actions using_ kwargs w)
   = fst (helpers_bulk using_ (stream_items actions) kwargs (cluster w))
   /\ post_index (snd (bulk self actions using_ kwargs w))
      = (post_index w
         ++ [ {| sender := class_name (doc_class self);
                 instance := self;
                 sig_actions := after_iteration actions;
                 sig_response :=
                   fst (helpers_bulk using_ (stream_items actions) kwargs
                          (cluster w)) |} ])%list)
  /\ post_index (snd (parallel_bulk self actions using_ kwargs w))
     = post_index w
  /\ (effective_parallel config parallel = true ->
      post_index
        (snd (update config self thing action refresh parallel using_ kwargs w))
      = post_index w)
  /\ (effective_parallel config parallel = false ->
      post_index
        (snd (update config self thing action refresh parallel using_ kwargs w))
      = (post_index w
         ++ [ {| sender := class_name (doc_class self);
                 instance := self;
                 sig_actions := ActionGenerator [];
                 sig_response :=
                   fst (helpers_bulk using_
                          (_get_actions self (iterate (object_list_of thing))
                             action)
                          (update_kwargs config self refresh kwargs)
                          (cluster w)) |} ])%list).
Proof.
  split; [|split; [|split]].
  - destruct (bulk_spec self actions using_ kwargs w) as (Hf & _ & Hp).
    now split.
  - now rewrite parallel_bulk_spec.
  - intros Hpar. rewrite update_unfold, Hpar. unfold _bulk.
    now rewrite parallel_bulk_spec.
  - intros Hseq. rewrite update_unfold, Hseq. unfold _bulk.
    destruct (bulk_spec self (ActionGenerator (update_actions self thing action))
                using_ (update_kwargs config self refresh kwargs) w)
      as (_ & _ & Hp).
    exact Hp.
Qed.

(** C7 (amended): a single record becomes a list of that one record; an
    iterable of records is taken as it is, no list being built from it.
    Either way the action stream is built from the records of the target,
    in their order. *)
Theorem update_target_normalisation (config : DODConfig) (self : Document)
  (thing : Thing) (action : BulkAction) (refresh parallel : option bool)
  (using_ : option string) (kwargs : Kwargs) (w : World S) :
  (forall m, object_list_of (Instance m) = PyList [m])
  /\ (forall it, object_list_of (Objects it) = it)
  /\ iterate (object_list_of thing)
     = match thing with
       | Instance m => [m]
       | Objects it => iterate it
       end
  /\ update config self thing action refresh parallel using_ kwargs w
     = _bulk self
         (ActionGenerator
            (_get_actions self (iterate (object_list_of thing)) action))
         (effective_parallel config parallel) using_
         (update_kwargs config self refresh kwargs) w.
Proof.
  split; [|split; [|split]].
  - reflexivity.
  - reflexivity.
  - now destruct thing.
  - apply update_unfold.
Qed.

End BulkFacts.

(** C7, as worded, fails: a queryset passed to [update] is not turned into
    a list. *)
Lemma queryset_target_not_a_list :
  ~ target_normalized_to_list (Objects (PyQuerySet (QS.all Sample.books))).
Proof.
  unfold target_normalized_to_list. simpl. discriminate.
Qed.

Lemma parallel_update_placeholder_witness :
  effective_parallel Sample.config None = true
  /\ fst (@update _ Sample.transport Sample.config Sample.doc
            (Objects (PyList Sample.books)) DELETE None None None []
            Sample.world0)
     = (1, VList []).
Proof.
  split; [reflexivity|].
  apply (@parallel_update_placeholder _ Sample.transport Sample.config
           Sample.doc (Objects (PyList Sample.books)) DELETE None None None []
           Sample.world0).
  reflexivity.
Defined.

Lemma post_index_notification_witness :
  effective_parallel Sample.config (Some false) = false
  /\ map (fun sig => (sender sig, sig_actions sig, sig_response sig))
       (post_index
          (snd (@update _ Sample.transport Sample.config Sample.doc
                  (Objects (PyList Sample.books)) INDEX None (Some false)
                  None [] Sample.world0)))
     = [("BookDocument", ActionGenerator [], (3, VList []))].
Proof.
  split; [reflexivity|].
  rewrite (proj2 (proj2 (proj2
             (@post_index_notification _ Sample.transport Sample.config
                Sample.doc (ActionList []) (Objects (PyList Sample.books))
                INDEX None (Some false) None [] Sample.world0))) eq_refl).
  reflexivity.
Defined.

(* ================================================================== *)
(** ** Querysets: ordering and slicing *)
(* ================================================================== *)

Lemma insert_by_perm (key : Model -> Z) (x : Model) (l : list Model) :
  Permutation (QS.insert_by key x l) (x :: l).
Proof.
  induction l as [|y l IH]; simpl; [apply Permutation_refl|].
  destruct (key x <=? key y); [apply Permutation_refl|].
  eapply perm_trans; [apply perm_skip, IH | apply perm_swap].
Qed.

Lemma sort_by_perm (key : Model -> Z) (l : list Model) :
  Permutation (QS.sort_by key l) l.
Proof.
  induction l as [|x l IH]; simpl; [constructor|].
  eapply perm_trans; [apply insert_by_perm | now apply perm_skip].
Qed.

Lemma insert_by_sorted (key : Model -> Z) (x : Model) (l : list Model) :
  Sorted (fun a b => key a <= key b) l ->
  Sorted (fun a b => key a <= key b) (QS.insert_by key x l).
Proof.
  induction l as [|y l IH]; simpl; intros Hs.
  - repeat constructor.
  - destruct (Z.leb_spec (key x) (key y)) as [Hle|Hgt].
    + constructor; [assumption | now constructor].
    + inversion Hs as [|? ? Hs' Hhd]; subst.
      constructor; [now apply IH|].
      destruct l as [|z l]; simpl.
      * constructor. lia.
      * destruct (Z.leb_spec (key x) (key z)); constructor; try lia.
        now inversion Hhd.
Qed.

Lemma sort_by_sorted (key : Model -> Z) (l : list Model) :
  Sorted (fun a b => key a <= key b) (QS.sort_by key l).
Proof.
  induction l as [|x l IH]; simpl; [constructor | now apply insert_by_sorted].
Qed.

Lemma set_limits_selected (low high : option Z) (qs : QuerySet) :
  QS.selected (QS.set_limits low high qs) = QS.selected qs.
Proof. reflexivity. Qed.

(** A slice [qs[i : i + n]] of a queryset selects, of the rows of [qs],
    the [n] that follow the first [i]. *)
Lemma slice_evaluate (qs : QuerySet) (i n : Z) :
  qs_wf qs -> 0 <= i -> 0 <= n ->
  QS.evaluate (QS.set_limits (Some i) (Some (i + n)) qs)
  = firstn (Z.to_nat n) (skipn (Z.to_nat i) (QS.evaluate qs)).
Proof.
  intros [Hlow Hhigh] Hi Hn. unfold QS.evaluate.
  rewrite set_limits_selected. generalize (QS.selected qs) as sel. intros sel.
  unfold QS.set_limits. simpl.
  destruct (high_mark qs) as [hm|]; simpl.
  - rewrite skipn_firstn_comm, firstn_firstn, skipn_skipn.
    destruct (Z_le_gt_dec (low_mark qs + i) hm) as [Hle|Hgt].
    + replace (Z.min (Z.min hm (low_mark qs + (i + n))) (low_mark qs + i))
        with (low_mark qs + i) by lia.
      f_equal; [|f_equal]; lia.
    + replace (Z.min (Z.min hm (low_mark qs + (i + n))) (low_mark qs + i))
        with hm by lia.
      replace (Z.min hm (low_mark qs + (i + n))) with hm by lia.
      replace (Z.to_nat (hm - hm)) with 0%nat by lia.
      replace (Init.Nat.min (Z.to_nat n)
                 (Z.to_nat (hm - low_mark qs) - Z.to_nat i)) with 0%nat by lia.
      reflexivity.
  - rewrite skipn_skipn.
    replace (Z.min (low_mark qs + (i + n)) (low_mark qs + i))
      with (low_mark qs + i) by lia.
    f_equal; [|f_equal]; lia.
Qed.

Lemma getitem_slice (qs : QuerySet) (i n : Z) :
  0 <= i -> 0 <= n ->
  QS.getitem (Some i) (Some (i + n)) qs
  = inr (QS.set_limits (Some i) (Some (i + n)) qs).
Proof.
  intros Hi Hn. unfold QS.getitem, QS.negative.
  destruct (Z.ltb_spec i 0); [lia|].
  destruct (Z.ltb_spec (i + n) 0); [lia|]. reflexivity.
Qed.

(** What [get_queryset] returns without a cap, and with one. *)
Lemma get_queryset_uncapped (self : Document) (filter_ exclude : option Q) :
  exists qs,
    get_queryset self filter_ exclude None = inr qs
    /\ qs_rows qs = model_objects (doc_class self)
    /\ qs_ordering qs = None /\ low_mark qs = 0 /\ high_mark qs = None.
Proof.
  unfold get_queryset. eexists. split; [reflexivity|].
  destruct filter_, exclude; repeat split.
Qed.

Lemma get_queryset_capped (self : Document) (filter_ exclude : option Q)
  (c : Z) :
  0 <= c ->
  exists qs,
    get_queryset self filter_ exclude (Some c) = inr qs
    /\ qs_rows qs = model_objects (doc_class self)
    /\ qs_ordering qs = None /\ low_mark qs = 0 /\ high_mark qs = Some c.
Proof.
  intros Hc. unfold get_queryset, QS.getitem, QS.negative. simpl.
  destruct (Z.ltb_spec c 0); [lia|].
  eexists. split; [reflexivity|].
  destruct filter_, exclude; repeat split.
Qed.

Lemma get_queryset_negative_cap (self : Document) (filter_ exclude : option Q)
  (c : Z) :
  c < 0 ->
  get_queryset self filter_ exclude (Some c)
  = inl (ValueError "Negative indexing is not supported.").
Proof.
  intros Hc. unfold get_queryset, QS.getitem, QS.negative. simpl.
  destruct (Z.ltb_spec c 0); [reflexivity | lia].
Qed.

Lemma indexing_order_wf (qs : QuerySet) : qs_wf qs -> qs_wf (indexing_order qs).
Proof.
  unfold indexing_order. now destruct (negb (QS.is_sliced qs)).
Qed.

Lemma is_sliced_false (qs : QuerySet) :
  QS.is_sliced qs = false -> low_mark qs = 0 /\ high_mark qs = None.
Proof.
  unfold QS.is_sliced. intros Hs. apply orb_false_iff in Hs.
  destruct Hs as [Hl Hh]. split.
  - apply negb_false_iff in Hl. now apply Z.eqb_eq.
  - now destruct (high_mark qs).
Qed.



(* ================================================================== *)
(** ** The indexing loop *)
(* ================================================================== *)

Lemma pages_needed_zero (P : Z) : 0 < P -> pages_needed 0 P = 0.
Proof. intros HP. unfold pages_needed. apply Z.div_small. lia. Qed.

Lemma pages_needed_last (n P : Z) :
  0 < P -> 0 < n <= P -> pages_needed n P = 1.
Proof.
  intros HP Hn. unfold pages_needed. symmetry.
  apply (Z.div_unique _ _ 1 (n - 1)); lia.
Qed.

Lemma pages_needed_step (n P : Z) :
  0 < P -> pages_needed (n + P) P = pages_needed n P + 1.
Proof.
  intros HP. unfold pages_needed.
  replace (n + P + P - 1) with (n + P - 1 + 1 * P) by lia.
  apply Z.div_add. lia.
Qed.

(** [ceil(T / P)] pages of [P] records are enough for [T] records, and one
    page less is not. *)
Lemma pages_needed_bounds (T P : Z) :
  0 < P -> 0 <= T ->
  (pages_needed T P - 1) * P < T \/ T = 0 /\ pages_needed T P = 0.
Proof.
  intros HP HT. unfold pages_needed.
  destruct (Z.eq_dec T 0) as [->|Hne].
  - right. split; [reflexivity|]. apply Z.div_small. lia.
  - left. pose proof (Z.div_mod (T + P - 1) P ltac:(lia)) as Hdm.
    pose proof (Z.mod_pos_bound (T + P - 1) P HP) as Hmod. nia.
Qed.

Lemma pages_needed_cover (T P : Z) :
  0 < P -> 0 <= T -> T <= pages_needed T P * P.
Proof.
  intros HP HT. unfold pages_needed.
  pose proof (Z.div_mod (T + P - 1) P ltac:(lia)) as Hdm.
  pose proof (Z.mod_pos_bound (T + P - 1) P HP) as Hmod. nia.
Qed.

Section LoopFacts.
Context {F : Type} `{PyFloat F}.
Variable clock : nat -> F.
Variables (verbose : bool) (action model : string).
Variables (qs : QuerySet) (P : Z) (start : F).

Local Abbreviation records := (QS.evaluate qs).
Local Abbreviation T := (QS.count qs).
Local Abbreviation loop :=
  (indexing_loop clock verbose action model qs P (QS.count qs) start).

Lemma loop_finished (fuel : nat) (i done : Z) (tick : nat) :
  T <= done -> loop fuel i done tick = ([], Exhausted).
Proof.
  intros Hd. destruct fuel; simpl;
    destruct (Z.ltb_spec done T); try lia; reflexivity.
Qed.

(** One pass of the loop, when the page can be asked for. *)
Lemma loop_pass (fuel : nat) (i done : Z) (tick : nat) :
  done < T -> 0 <= i -> 0 <= P ->
  exists line tick',
    loop (S fuel) i done tick
    = ({| it_i := i; it_done := done; it_tick := tick; it_line := line;
          it_page := QS.evaluate (QS.set_limits (Some i) (Some (i + P)) qs) |}
       :: fst (loop fuel (Z.min (i + P) T)
                 (done + Z.of_nat (List.length
                    (QS.evaluate (QS.set_limits (Some i) (Some (i + P)) qs))))
                 tick'),
       snd (loop fuel (Z.min (i + P) T)
              (done + Z.of_nat (List.length
                 (QS.evaluate (QS.set_limits (Some i) (Some (i + P)) qs))))
              tick')).
Proof.
  intros Hd Hi HP. simpl.
  destruct (Z.ltb_spec done T); [|lia].
  rewrite (getitem_slice qs i P Hi HP).
  destruct verbose.
  - destruct (_eta clock tick start done T) as [eta tick'].
    eexists. exists tick'.
    destruct (indexing_loop clock true action model qs P T start fuel
                (Z.min (i + P) T) _ tick'); reflexivity.
  - eexists. exists tick.
    destruct (indexing_loop clock false action model qs P T start fuel
                (Z.min (i + P) T) _ tick); reflexivity.
Qed.

Lemma empty_slice (i : Z) :
  QS.evaluate (QS.set_limits (Some i) (Some (i + 0)) qs) = [].
Proof.
  unfold QS.evaluate, QS.set_limits. simpl.
  destruct (high_mark qs) as [hm|]; simpl.
  - replace (Z.min hm (low_mark qs + (i + 0))
             - Z.min (Z.min hm (low_mark qs + (i + 0))) (low_mark qs + i))
      with 0 by lia.
    reflexivity.
  - replace (low_mark qs + (i + 0)
             - Z.min (low_mark qs + (i + 0)) (low_mark qs + i))
      with 0 by lia.
    reflexivity.
Qed.

Hypothesis Hwf : qs_wf qs.
Hypothesis HP : 0 < P.

Lemma page_length (i : Z) :
  0 <= i <= T ->
  Z.of_nat (List.length (QS.evaluate (QS.set_limits (Some i) (Some (i + P)) qs)))
  = Z.min (i + P) T - i.
Proof.
  intros Hi. rewrite slice_evaluate by (assumption || lia).
  rewrite length_firstn, length_skipn. unfold QS.count in *. lia.
Qed.

(** With a positive page size the loop started at cursor [i], with [i]
    records done, ends within [T - i] passes; it yields the records from
    position [i] on, page by page. *)
Lemma loop_spec (fuel : nat) :
  forall (i : Z) (tick : nat),
    0 <= i <= T -> T - i <= Z.of_nat fuel ->
    snd (loop fuel i i tick) = Exhausted
    /\ List.concat (map it_page (fst (loop fuel i i tick)))
       = skipn (Z.to_nat i) records
    /\ Z.of_nat (List.length (fst (loop fuel i i tick)))
       = pages_needed (T - i) P
    /\ (forall k it,
          nth_error (fst (loop fuel i i tick)) k = Some it ->
          it_i it = i + Z.of_nat k * P
          /\ it_done it = it_i it
          /\ it_page it
             = firstn (Z.to_nat P) (skipn (Z.to_nat (it_i it)) records)
          /\ it_i it < T).
Proof.
  induction fuel as [|fuel IH]; intros i tick Hi Hfuel.
  - assert (i = T) by lia. subst i.
    rewrite loop_finished by lia. simpl. repeat split.
    + unfold QS.count.
      rewrite Nat2Z.id. symmetry. apply skipn_all2. lia.
    + rewrite Z.sub_diag. symmetry. now apply pages_needed_zero.
    + destruct k; discriminate.
    + destruct k; discriminate.
    + destruct k; discriminate.
    + destruct k; discriminate.
  - destruct (Z.eq_dec i T) as [->|Hne].
    + rewrite loop_finished by lia. simpl. repeat split.
      * unfold QS.count.
        rewrite Nat2Z.id. symmetry. apply skipn_all2. lia.
      * rewrite Z.sub_diag. symmetry. now apply pages_needed_zero.
      * destruct k; discriminate.
      * destruct k; discriminate.
      * destruct k; discriminate.
      * destruct k; discriminate.
    + destruct (loop_pass fuel i i tick) as (line & tick' & Hpass);
        [lia | lia | lia |].
      rewrite Hpass. clear Hpass. rewrite page_length by lia.
      replace (i + (Z.min (i + P) T - i)) with (Z.min (i + P) T) by lia.
      destruct (IH (Z.min (i + P) T) tick') as (Hst & Hcat & Hlen & Hnth);
        [lia | lia |].
      cbn [fst snd]. split; [exact Hst|]. split; [|split].
      * cbn [map List.concat it_page].
        rewrite Hcat, slice_evaluate by (assumption || lia).
        rewrite <- (firstn_skipn (Z.to_nat P) (skipn (Z.to_nat i) records))
          at 2.
        f_equal. rewrite skipn_skipn.
        destruct (Z_le_gt_dec (i + P) T) as [Hle|Hgt].
        -- f_equal. lia.
        -- rewrite !skipn_all2; [reflexivity | |];
             unfold QS.count in *; lia.
      * cbn [List.length]. rewrite Nat2Z.inj_succ, Hlen.
        destruct (Z_le_gt_dec (i + P) T) as [Hle|Hgt].
        -- replace (Z.min (i + P) T) with (i + P) by lia.
           replace (T - i) with (T - (i + P) + P) by lia.
           rewrite pages_needed_step by assumption. lia.
        -- replace (Z.min (i + P) T) with T by lia.
           rewrite Z.sub_diag, pages_needed_zero by assumption.
           rewrite pages_needed_last; lia.
      * intros [|k] it Hk; simpl in Hk.
        -- inversion Hk; subst it; simpl. repeat split; try lia.
           apply slice_evaluate; assumption || lia.
        -- destruct (Hnth k it Hk) as (Hi' & Hd' & Hp' & Hlt).
           repeat split; try assumption. lia.
Qed.

End LoopFacts.

(** A page size of zero: no pass yields a record or moves the cursor, so
    that the loop does not end when there is a record to yield. *)
Lemma zero_page_size_never_ends {F : Type} `{PyFloat F} (clock : nat -> F)
  (verbose : bool) (action model : string) (qs : QuerySet) (total : Z)
  (start : F) :
  0 < total ->
  forall (fuel tick : nat),
    snd (indexing_loop clock verbose action model qs 0 total start
           fuel 0 0 tick) = OutOfFuel
    /\ List.concat
         (map it_page
            (fst (indexing_loop clock verbose action model qs 0 total start
                    fuel 0 0 tick))) = [].
Proof.
  intros Htotal. induction fuel as [|fuel IH]; intros tick; simpl;
    destruct (Z.ltb_spec 0 total); try lia; [now split|].
  pose proof (empty_slice qs 0) as Hpage. simpl in Hpage.
  unfold QS.getitem. simpl. rewrite Hpage. simpl.
  replace (Z.min 0 total) with 0 by lia.
  destruct verbose.
  - destruct (IH (S tick)) as [Hst Hcat]. destruct (IH tick) as [Hst' Hcat'].
    unfold _eta. simpl.
    destruct (indexing_loop clock true action model qs 0 total start fuel 0 0
                tick) as [rest st].
    simpl in *. now split.
  - destruct (IH tick) as [Hst Hcat].
    destruct (indexing_loop clock false action model qs 0 total start fuel 0 0
                tick) as [rest st].
    simpl in *. now split.
Qed.

(* ================================================================== *)
(** ** Progress lines *)
(* ================================================================== *)

Section ProgressFacts.
Context {F : Type} `{PyFloat F}.
Variable clock : nat -> F.

(** [_eta] gives [~] while nothing is done, and afterwards the estimate in
    seconds or minutes. *)
Lemma eta_spec (tick : nat) (start : F) (done total : Z) :
  fst (_eta clock tick start done total)
  = if done =? 0 then "~"
    else eta_text (estimate (clock tick) start done total).
Proof.
  unfold _eta, eta_text, estimate.
  destruct (done =? 0); [reflexivity|].
  set (e := pyround _).
  destruct (Z.gtb_spec e 120), (Z.leb_spec e 120); try lia; reflexivity.
Qed.

Section Lines.
Variables (verbose : bool) (action model : string).
Variables (qs : QuerySet) (P total : Z) (start : F).

Local Abbreviation loop :=
  (indexing_loop clock verbose action model qs P total start).

(** The line of a pass is the progress line made of the percentage at the
    cursor and of [_eta] at the count of records done. *)
Lemma loop_lines (fuel : nat) :
  forall (i done : Z) (tick : nat),
    Forall (fun it =>
              it_line it
              = if verbose
                then Some (progress_line action model
                             (str_of_int (percent (it_i it) total))
                             (fst (_eta clock (it_tick it) start (it_done it)
                                     total)))
                else None)
      (fst (loop fuel i done tick)).
Proof.
  induction fuel as [|fuel IH]; intros i done tick; simpl;
    destruct (done <? total); try (simpl; constructor).
  assert (Hrest : forall tick',
    Forall (fun it =>
              it_line it
              = if verbose
                then Some (progress_line action model
                             (str_of_int (percent (it_i it) total))
                             (fst (_eta clock (it_tick it) start (it_done it)
                                     total)))
                else None)
      (fst (loop fuel (Z.min (i + P) total)
              (done + Z.of_nat (List.length
                 (QS.evaluate
                    (QS.set_limits (Some i) (Some (i + P)) qs))))
              tick'))) by (intros; apply IH).
  destruct verbose.
  - destruct (_eta clock tick start done total) as [eta tick'] eqn:Eeta.
    destruct (QS.getitem (Some i) (Some (i + P)) qs) as [e|page_qs] eqn:Eg.
    + simpl. constructor; [|constructor]. simpl. now rewrite Eeta.
    + unfold QS.getitem in Eg.
      destruct (QS.negative (Some i) || QS.negative (Some (i + P)));
        [discriminate|]. inversion Eg; subst page_qs.
      specialize (Hrest tick').
      destruct (indexing_loop clock true action model qs P total start fuel
                  (Z.min (i + P) total) _ tick') as [rest st].
      simpl. constructor; [|exact Hrest]. simpl. now rewrite Eeta.
  - destruct (QS.getitem (Some i) (Some (i + P)) qs) as [e|page_qs] eqn:Eg.
    + simpl. constructor; [reflexivity|constructor].
    + unfold QS.getitem in Eg.
      destruct (QS.negative (Some i) || QS.negative (Some (i + P)));
        [discriminate|]. inversion Eg; subst page_qs.
      specialize (Hrest tick).
      destruct (indexing_loop clock false action model qs P total start fuel
                  (Z.min (i + P) total) _ tick) as [rest st].
      simpl. constructor; [reflexivity|exact Hrest].
Qed.

(** [done] counts the records yielded: on entry of pass [k] it is what it
    was at the start plus the sizes of the pages before. *)
Lemma loop_done_counts (fuel : nat) :
  forall (i done : Z) (tick : nat) (k : nat) (it : Iteration),
    nth_error (fst (loop fuel i done tick)) k = Some it ->
    it_done it = done + processed_before (fst (loop fuel i done tick)) k.
Proof.
  unfold processed_before.
  induction fuel as [|fuel IH]; intros i done tick k it; simpl;
    destruct (done <? total);
    try (simpl; destruct k; discriminate).
  assert (Hrest : forall tick' k' it',
    nth_error (fst (loop fuel (Z.min (i + P) total)
                      (done + Z.of_nat (List.length
                         (QS.evaluate
                            (QS.set_limits (Some i) (Some (i + P)) qs))))
                      tick')) k' = Some it' ->
    it_done it'
    = done + Z.of_nat (List.length
               (QS.evaluate (QS.set_limits (Some i) (Some (i + P)) qs)))
      + Z.of_nat (List.length (List.concat (map it_page
          (firstn k' (fst (loop fuel (Z.min (i + P) total)
                      (done + Z.of_nat (List.length
                         (QS.evaluate
                            (QS.set_limits (Some i) (Some (i + P)) qs))))
                      tick')))))))
    by (intros; now apply IH).
  destruct (if verbose
            then let '(eta, tick') := _eta clock tick start done total in
                 (Some (progress_line action model
                          (str_of_int (percent i total)) eta), tick')
            else (None, tick)) as [line tick'].
  destruct (QS.getitem (Some i) (Some (i + P)) qs) as [e|page_qs] eqn:Eg.
  - simpl. destruct k as [|[|k]]; simpl; intros Hk; inversion Hk; simpl. lia.
  - unfold QS.getitem in Eg.
    destruct (QS.negative (Some i) || QS.negative (Some (i + P)));
      [discriminate|]. inversion Eg; subst page_qs.
    specialize (Hrest tick').
    destruct (indexing_loop clock verbose action model qs P total start fuel
                (Z.min (i + P) total) _ tick') as [rest st].
    simpl in *. destruct k as [|k]; simpl; intros Hk.
    + inversion Hk; simpl. lia.
    + rewrite (Hrest k it Hk), length_app. lia.
Qed.

End Lines.

(** C8 (amended): in verbose mode the line written before the loop shows
    [~] as its estimate, and so does the line of every pass entered before
    any record has been yielded.  Once records have been yielded, the line
    of a pass
    shows the estimate computed from the time elapsed since the start and
    the number of records done so far, rounded to whole seconds: as that
    many seconds when it is at most 120, and otherwise in whole minutes,
    the quotient of those seconds by 60. *)
Theorem progress_line_eta (fuel : nat) (self : Document)
  (filter_ exclude : option Q) (count : option Z) (action : CommandAction) :
  let r :=
    get_indexing_queryset clock fuel self true filter_ exclude count action in
  let total := indexing_total self filter_ exclude count in
  let label := present_participle_title action in
  let model := model_name (doc_class self) in
  (forall qs, get_queryset self filter_ exclude count = inr qs ->
     header r = Some (progress_line label model "0" "~"))
  /\ (forall k it,
        nth_error (iterations r) k = Some it ->
        it_line it
        = Some (progress_line label model
                  (str_of_int (percent (it_i it) total))
                  (if processed_before (iterations r) k =? 0 then "~"
                   else eta_text
                          (estimate (clock (it_tick it)) (clock 0)
                             (processed_before (iterations r) k) total)))).
Proof.
  intros r total label model. unfold r, total, get_indexing_queryset,
    indexing_total.
  destruct (get_queryset self filter_ exclude count) as [e|qs] eqn:Hq.
  - simpl. split; [intros qs Hqs; discriminate Hqs|].
    intros k it Hk. destruct k; discriminate Hk.
  - cbn [_eta Z.eqb].
    pose proof (loop_lines true label model (indexing_order qs)
                  (queryset_pagination (doc_class self))
                  (QS.count (indexing_order qs)) (clock 0) fuel 0 0 1%nat)
      as Hlines.
    pose proof (loop_done_counts true label model (indexing_order qs)
                  (queryset_pagination (doc_class self))
                  (QS.count (indexing_order qs)) (clock 0) fuel 0 0 1%nat)
      as Hdone.
    fold label model.
    destruct (indexing_loop clock true label model (indexing_order qs)
                (queryset_pagination (doc_class self))
                (QS.count (indexing_order qs)) (clock 0) fuel 0 0 1%nat)
      as [its st].
    cbn [header iterations fst] in *. split; [reflexivity|].
    intros k it Hk.
    rewrite Forall_forall in Hlines.
    rewrite (Hlines it (nth_error_In _ _ Hk)), eta_spec.
    rewrite (Hdone k it Hk), Z.add_0_l. reflexivity.
Qed.

End ProgressFacts.

Lemma progress_line_eta_witness :
  exists it,
    nth_error
      (iterations
         (@get_indexing_queryset Z Sample.milli_float Sample.clock 10
            Sample.doc true None None None Sample.indexing)) 1
    = Some it
    /\ it_line it
       = Some ("Indexing Book: 40% (2 mins)" ++ CR).
Proof.
  eexists. split; [vm_compute; reflexivity|].
  etransitivity.
  - apply (proj2 (@progress_line_eta Z Sample.milli_float Sample.clock 10
                    Sample.doc None None None Sample.indexing) 1%nat).
    vm_compute. reflexivity.
  - vm_compute. reflexivity.
Defined.

(** C8, as worded, fails: an estimate of 179 seconds is shown as 2 minutes,
    the quotient of 179 by 60, while 179 seconds are 3 minutes when
    rounded. *)
Lemma eta_minutes_not_rounded :
  fst (@_eta Z Sample.milli_float Sample.clock 1 0 100 279)
  <> @eta_as_worded Z Sample.milli_float (Sample.clock 1) 0 100 279.
Proof. vm_compute. discriminate. Qed.

(* ================================================================== *)
(** ** Chunked iteration *)
(* ================================================================== *)

Lemma evaluate_indexing_order_unsliced (qs : QuerySet) :
  QS.is_sliced qs = false ->
  QS.evaluate (indexing_order qs) = QS.sort_by pk (selection qs).
Proof.
  intros Hs. destruct (is_sliced_false qs Hs) as [Hl Hh].
  unfold indexing_order. rewrite Hs.
  unfold QS.evaluate, QS.selected, selection. simpl. now rewrite Hl, Hh.
Qed.

Lemma evaluate_indexing_order_capped (qs : QuerySet) (c : Z) :
  qs_ordering qs = None -> low_mark qs = 0 -> high_mark qs = Some c ->
  QS.evaluate (indexing_order qs) = firstn (Z.to_nat c) (selection qs).
Proof.
  intros Ho Hl Hh. unfold indexing_order, QS.is_sliced. rewrite Hh, orb_true_r.
  unfold QS.evaluate, QS.selected, selection. simpl.
  now rewrite Ho, Hl, Hh, Z.sub_0_r.
Qed.

(** C2, as worded, fails: with a cap of three records the sample table is
    yielded in the order of the store, which is not that of the keys. *)
Lemma capped_selection_not_in_pk_order :
  ~ exists fuel,
      @yields_in_pk_order Z Sample.milli_float
        (@get_indexing_queryset Z Sample.milli_float Sample.clock fuel
           Sample.doc false None None (Some 3) Sample.indexing).
Proof.
  intros [fuel [Hst Hasc]].
  destruct fuel as [|[|[|fuel]]].
  - vm_compute in Hst. discriminate Hst.
  - vm_compute in Hst. discriminate Hst.
  - vm_compute in Hasc. discriminate Hasc.
  - vm_compute in Hasc. discriminate Hasc.
Qed.

Section ChunkerFacts.
Context {F : Type} `{PyFloat F}.
Variable clock : nat -> F.

(** C2 (amended): for a positive page size [P] and a selection of [T]
    records, uncapped or with a cap that is not negative, the generator
    runs to its end and yields exactly the [T] records of the selection,
    each once, in [ceil(T / P)] pages: pass [k] starts at cursor [k * P]
    and yields the [P] records from there ([T - k * P] of them on the last
    page), the cursor then moves to [min(cursor + P, T)], and the pass
    after which it is [T] is the last.  The records come by ascending
    primary key when the selection is uncapped, the order being imposed on
    it then; a capped selection comes in the order of the store, cut at the
    cap. *)
Theorem indexing_queryset_pages (self : Document) (verbose : bool)
  (filter_ exclude : option Q) (count : option Z) (action : CommandAction) :
  0 < queryset_pagination (doc_class self) ->
  (forall c, count = Some c -> 0 <= c) ->
  exists qs,
    get_queryset self filter_ exclude count = inr qs
    /\ let P := queryset_pagination (doc_class self) in
       let records := QS.evaluate (indexing_order qs) in
       let T := Z.of_nat (List.length records) in
       (count = None ->
        records = QS.sort_by pk (selection qs)
        /\ Sorted pk_le records
        /\ Permutation records (selection qs))
       /\ (forall c, count = Some c ->
           records = firstn (Z.to_nat c) (selection qs))
       /\ (forall fuel, T <= Z.of_nat fuel ->
           let r :=
             get_indexing_queryset clock fuel self verbose filter_ exclude
               count action in
           status r = Exhausted
           /\ yielded r = records
           /\ Z.of_nat (List.length (iterations r)) = pages_needed T P
           /\ (forall k it,
                 nth_error (iterations r) k = Some it ->
                 it_i it = Z.of_nat k * P
                 /\ it_done it = it_i it
                 /\ it_page it
                    = firstn (Z.to_nat P) (skipn (Z.to_nat (it_i it)) records)
                 /\ it_i it < T
                 /\ (nth_error (iterations r) (S k) = None ->
                     Z.min (it_i it + P) T = T)
                 /\ (forall it',
                       nth_error (iterations r) (S k) = Some it' ->
                       it_i it' = Z.min (it_i it + P) T))).
Proof.
  intros HP Hcount.
  assert (Hq : exists qs,
    get_queryset self filter_ exclude count = inr qs
    /\ qs_wf qs
    /\ (count = None -> QS.is_sliced qs = false)
    /\ (forall c, count = Some c ->
        qs_ordering qs = None /\ low_mark qs = 0 /\ high_mark qs = Some c)).
  { destruct count as [c|].
    - destruct (get_queryset_capped self filter_ exclude c (Hcount c eq_refl))
        as (qs & Hq & _ & Ho & Hl & Hh).
      exists qs. split; [exact Hq|]. split; [|split].
      + unfold qs_wf. rewrite Hl, Hh. split; [lia | now apply Hcount].
      + discriminate.
      + intros c' Hc'. inversion Hc'; subst c'. now repeat split.
    - destruct (get_queryset_uncapped self filter_ exclude)
        as (qs & Hq & _ & Ho & Hl & Hh).
      exists qs. split; [exact Hq|]. split; [|split].
      + unfold qs_wf. rewrite Hl, Hh. split; [lia | exact I].
      + intros _. unfold QS.is_sliced. now rewrite Hl, Hh.
      + discriminate. }
  destruct Hq as (qs & Hq & Hwf & Hnone & Hsome).
  exists qs. split; [exact Hq|]. cbv zeta. split; [|split].
  - intros Hc. rewrite (evaluate_indexing_order_unsliced qs (Hnone Hc)).
    split; [reflexivity|]. split.
    + apply (sort_by_sorted pk).
    + apply sort_by_perm.
  - intros c Hc. destruct (Hsome c Hc) as (Ho & Hl & Hh).
    now apply evaluate_indexing_order_capped.
  - intros fuel Hfuel. unfold get_indexing_queryset. rewrite Hq.
    set (oqs := indexing_order qs) in *.
    set (P := queryset_pagination (doc_class self)) in *.
    assert (Hspec : forall tick,
      let loop :=
        indexing_loop clock verbose (present_participle_title action)
          (model_name (doc_class self)) oqs P (QS.count oqs) (clock 0) in
      snd (loop fuel 0 0 tick) = Exhausted
      /\ List.concat (map it_page (fst (loop fuel 0 0 tick)))
         = QS.evaluate oqs
      /\ Z.of_nat (List.length (fst (loop fuel 0 0 tick)))
         = pages_needed (QS.count oqs) P
      /\ (forall k it,
            nth_error (fst (loop fuel 0 0 tick)) k = Some it ->
            it_i it = Z.of_nat k * P
            /\ it_done it = it_i it
            /\ it_page it
               = firstn (Z.to_nat P)
                   (skipn (Z.to_nat (it_i it)) (QS.evaluate oqs))
            /\ it_i it < QS.count oqs)).
    { intros tick loop. unfold loop.
      destruct (loop_spec clock verbose (present_participle_title action)
                  (model_name (doc_class self)) oqs P (clock 0)
                  (indexing_order_wf qs Hwf) HP fuel 0 tick)
        as (Hst & Hcat & Hlen & Hnth).
      - unfold QS.count. lia.
      - unfold QS.count. lia.
      - split; [exact Hst|]. split; [exact Hcat|]. split.
        + now rewrite Hlen, Z.sub_0_r.
        + intros k it Hk. destruct (Hnth k it Hk) as (Hi & Hrest).
          split; [lia | exact Hrest]. }
    assert (Hgoal : forall header tick,
      let '(its, st) :=
        indexing_loop clock verbose (present_participle_title action)
          (model_name (doc_class self)) oqs P (QS.count oqs) (clock 0)
          fuel 0 0 tick in
      forall footer,
      let r := {| header := header; iterations := its; footer := footer st;
                  status := st |} in
      status r = Exhausted
      /\ yielded r = QS.evaluate oqs
      /\ Z.of_nat (List.length (iterations r))
         = pages_needed (Z.of_nat (List.length (QS.evaluate oqs))) P
      /\ (forall k it,
            nth_error (iterations r) k = Some it ->
            it_i it = Z.of_nat k * P
            /\ it_done it = it_i it
            /\ it_page it
               = firstn (Z.to_nat P)
                   (skipn (Z.to_nat (it_i it)) (QS.evaluate oqs))
            /\ it_i it < Z.of_nat (List.length (QS.evaluate oqs))
            /\ (nth_error (iterations r) (S k) = None ->
                Z.min (it_i it + P) (Z.of_nat (List.length (QS.evaluate oqs)))
                = Z.of_nat (List.length (QS.evaluate oqs)))
            /\ (forall it',
                  nth_error (iterations r) (S k) = Some it' ->
                  it_i it'
                  = Z.min (it_i it + P)
                      (Z.of_nat (List.length (QS.evaluate oqs)))))).
    { intros hd tick. specialize (Hspec tick). cbv zeta in Hspec.
      destruct (indexing_loop clock verbose (present_participle_title action)
                  (model_name (doc_class self)) oqs P (QS.count oqs)
                  (clock 0) fuel 0 0 tick) as [its st].
      cbn [fst snd] in Hspec. destruct Hspec as (Hst & Hcat & Hlen & Hnth).
      intros ft. cbn [status iterations]. unfold yielded. cbn [iterations].
      unfold QS.count in *.
      split; [exact Hst|]. split; [exact Hcat|]. split; [exact Hlen|].
      intros k it Hk. destruct (Hnth k it Hk) as (Hi & Hd & Hp & Hlt).
      repeat split; try assumption.
      - intros Hlast. apply nth_error_None in Hlast.
        pose proof (pages_needed_cover
                      (Z.of_nat (List.length (QS.evaluate oqs))) P HP
                      ltac:(lia)) as Hcover.
        rewrite <- Hlen in Hcover. nia.
      - intros it' Hk'. destruct (Hnth _ it' Hk') as (Hi' & _ & _ & Hlt').
        lia. }
    destruct verbose.
    + cbn [_eta Z.eqb].
      specialize (Hgoal
        (Some (progress_line (present_participle_title action)
                 (model_name (doc_class self)) "0" "~")) 1%nat).
      destruct (indexing_loop clock true (present_participle_title action)
                  (model_name (doc_class self)) oqs P (QS.count oqs)
                  (clock 0) fuel 0 0 1%nat) as [its st].
      exact (Hgoal (fun st =>
               match st with
               | Exhausted =>
                   Some (present_participle_title action ++ " "
                         ++ str_of_int (QS.count oqs) ++ " "
                         ++ model_name (doc_class self)
                         ++ ": OK          " ++ LF)
               | _ => None
               end)).
    + specialize (Hgoal None 1%nat).
      destruct (indexing_loop clock false (present_participle_title action)
                  (model_name (doc_class self)) oqs P (QS.count oqs)
                  (clock 0) fuel 0 0 1%nat) as [its st].
      exact (Hgoal (fun st => match st with Exhausted => None | _ => None end)).
Qed.

End ChunkerFacts.

Lemma indexing_queryset_pages_witness :
  0 < queryset_pagination (doc_class Sample.doc)
  /\ (forall c, @None Z = Some c -> 0 <= c)
  /\ exists qs,
       get_queryset Sample.doc None None None = inr qs
       /\ yielded
            (@get_indexing_queryset Z Sample.milli_float Sample.clock 5
               Sample.doc false None None None Sample.indexing)
          = QS.evaluate (indexing_order qs).
Proof.
  assert (H1 : 0 < queryset_pagination (doc_class Sample.doc)) by reflexivity.
  assert (H2 : forall c, @None Z = Some c -> 0 <= c) by discriminate.
  split; [exact H1|]. split; [exact H2|].
  destruct (@indexing_queryset_pages Z Sample.milli_float Sample.clock
              Sample.doc false None None None Sample.indexing H1 H2)
    as (qs & Hq & _ & _ & Hrun).
  exists qs. split; [exact Hq|].
  apply (Hrun 5%nat).
  unfold get_queryset in Hq. simpl in Hq. inversion Hq; subst qs.
  vm_compute. discriminate.
Defined.

(** Five records in pages of two: pages of two, two and one record, by
    ascending key; before any record the estimate is [~]. *)
Example five_records_pages_of_two :
  let r :=
    @get_indexing_queryset Z Sample.milli_float Sample.clock 5 Sample.doc
      true None None None Sample.indexing in
  map (fun it => map pk (it_page it)) (iterations r) = [[1; 2]; [3; 4]; [5]]
  /\ header r = Some ("Indexing Book: 0% (~)" ++ CR)
  /\ status r = Exhausted.
Proof. vm_compute. repeat split. Qed.

(* ================================================================== *)
(** ** Further facts: dictionaries *)
(* ================================================================== *)

Lemma PyDict_get_set_eq {V} (k : string) (v : V) (d : PyDict.t V) :
  PyDict.get k (PyDict.set k v d) = Some v.
Proof.
  induction d as [|[k' v'] d IH]; simpl.
  - now rewrite String.eqb_refl.
  - destruct (String.eqb k k') eqn:E; simpl; rewrite E; [reflexivity|exact IH].
Qed.

Lemma PyDict_get_set_ne {V} (k k0 : string) (v : V) (d : PyDict.t V) :
  k0 <> k -> PyDict.get k0 (PyDict.set k v d) = PyDict.get k0 d.
Proof.
  intros Hne. induction d as [|[k' v'] d IH]; simpl.
  - destruct (String.eqb_spec k0 k); [contradiction|reflexivity].
  - destruct (String.eqb_spec k k') as [->|Hkk']; simpl.
    + destruct (String.eqb_spec k0 k'); [contradiction|reflexivity].
    + destruct (String.eqb k0 k'); [reflexivity|exact IH].
Qed.

Lemma PyDict_get_fold_set_other {V} (k0 : string) (entries acc : PyDict.t V) :
  ~ In k0 (map fst entries) ->
  PyDict.get k0
    (fold_left (fun d kv => PyDict.set (fst kv) (snd kv) d) entries acc)
  = PyDict.get k0 acc.
Proof.
  revert acc. induction entries as [|[k v] entries IH]; intros acc Hnot;
    simpl; [reflexivity|].
  rewrite IH by (intros Hin; apply Hnot; now right).
  apply PyDict_get_set_ne. intros ->. apply Hnot. now left.
Qed.

(* ================================================================== *)
(** ** Further facts: prefixes of lists *)
(* ================================================================== *)

Lemma In_firstn {A} (n : nat) (l : list A) (x : A) :
  In x (firstn n l) -> In x l.
Proof.
  intros Hin. rewrite <- (firstn_skipn n l). apply in_or_app. now left.
Qed.

Lemma firstn_plus {A} (n m : nat) (l : list A) :
  firstn (n + m) l = (firstn n l ++ firstn m (skipn n l))%list.
Proof.
  revert l. induction n as [|n IH]; intros l; simpl; [reflexivity|].
  destruct l as [|x l]; simpl.
  - now rewrite firstn_nil.
  - now rewrite IH.
Qed.

(* ================================================================== *)
(** ** Further facts: the selection *)
(* ================================================================== *)

Lemma get_queryset_where (self : Document) (filter_ exclude : option Q)
  (count : option Z) (qs : QuerySet) :
  get_queryset self filter_ exclude count = inr qs ->
  selection qs
  = List.filter (keeps filter_ exclude) (model_objects (doc_class self)).
Proof.
  unfold get_queryset, QS.getitem, selection, keeps.
  destruct count as [c|]; simpl.
  - destruct (c <? 0); [discriminate|]. intros Hq. inversion Hq; subst qs.
    destruct filter_, exclude; simpl; apply filter_ext; intros m;
      simpl; try reflexivity;
      now rewrite ?andb_true_r.
  - intros Hq. inversion Hq; subst qs.
    destruct filter_, exclude; simpl; apply filter_ext; intros m;
      simpl; try reflexivity;
      now rewrite ?andb_true_r.
Qed.

(** What the selection of [get_queryset] is, once run: the rows of the
    table that pass the filter and are not excluded (a row that matches
    both conditions is left out), in the order of the store, and of those
    the first [count] when a cap that is not negative is given. *)
Theorem get_queryset_selection (self : Document) (filter_ exclude : option Q)
  (count : option Z) :
  (forall c, count = Some c -> 0 <= c) ->
  exists qs,
    get_queryset self filter_ exclude count = inr qs
    /\ QS.evaluate qs
       = match count with
         | None =>
             List.filter (keeps filter_ exclude)
               (model_objects (doc_class self))
         | Some c =>
             firstn (Z.to_nat c)
               (List.filter (keeps filter_ exclude)
                  (model_objects (doc_class self)))
         end
    /\ (forall m, In m (QS.evaluate qs) ->
        In m (model_objects (doc_class self))
        /\ match filter_ with Some f => f m = true | None => True end
        /\ match exclude with Some e => e m = false | None => True end).
Proof.
  intros Hcount.
  assert (Hmem : forall m,
    In m (List.filter (keeps filter_ exclude)
            (model_objects (doc_class self))) ->
    In m (model_objects (doc_class self))
    /\ match filter_ with Some f => f m = true | None => True end
    /\ match exclude with Some e => e m = false | None => True end).
  { intros m Hin. apply filter_In in Hin. destruct Hin as [Hin Hk].
    split; [exact Hin|]. unfold keeps in Hk. apply andb_true_iff in Hk.
    destruct Hk as [Hf He]. apply negb_true_iff in He.
    destruct filter_, exclude; auto. }
  destruct count as [c|].
  - destruct (get_queryset_capped self filter_ exclude c (Hcount c eq_refl))
      as (qs & Hq & _ & Ho & Hl & Hh).
    exists qs. split; [exact Hq|].
    assert (He : QS.evaluate qs
                 = firstn (Z.to_nat c)
                     (List.filter (keeps filter_ exclude)
                        (model_objects (doc_class self)))).
    { rewrite <- (get_queryset_where _ _ _ _ _ Hq).
      unfold QS.evaluate, QS.selected, selection.
      now rewrite Ho, Hl, Hh, Z.sub_0_r. }
    split; [exact He|]. intros m Hin. rewrite He in Hin.
    apply Hmem. eapply In_firstn. exact Hin.
  - destruct (get_queryset_uncapped self filter_ exclude)
      as (qs & Hq & _ & Ho & Hl & Hh).
    exists qs. split; [exact Hq|].
    assert (He : QS.evaluate qs
                 = List.filter (keeps filter_ exclude)
                     (model_objects (doc_class self))).
    { rewrite <- (get_queryset_where _ _ _ _ _ Hq).
      unfold QS.evaluate, QS.selected, selection.
      now rewrite Ho, Hl, Hh. }
    split; [exact He|]. intros m Hin. rewrite He in Hin. now apply Hmem.
Qed.

Lemma get_queryset_selection_witness :
  (forall c, Some 2 = Some c -> 0 <= c)
  /\ exists qs,
       get_queryset Sample.doc (Some (fun m => 1 <? pk m))
         (Some (fun m => pk m =? 5)) (Some 2) = inr qs
       /\ map pk (QS.evaluate qs) = [3; 2].
Proof.
  assert (H1 : forall c, Some 2 = Some c -> 0 <= c).
  { intros c Hc. inversion Hc; subst c. discriminate. }
  split; [exact H1|].
  destruct (get_queryset_selection Sample.doc (Some (fun m => 1 <? pk m))
              (Some (fun m => pk m =? 5)) (Some 2) H1) as (qs & Hq & He & _).
  exists qs. split; [exact Hq|]. rewrite He. reflexivity.
Defined.

(* ================================================================== *)
(** ** Further facts: runs of the chunker *)
(* ================================================================== *)

Lemma get_queryset_ok (self : Document) (filter_ exclude : option Q)
  (count : option Z) :
  (forall c, count = Some c -> 0 <= c) ->
  exists qs,
    get_queryset self filter_ exclude count = inr qs
    /\ qs_wf qs
    /\ (count = None -> QS.is_sliced qs = false)
    /\ (forall c, count = Some c ->
        qs_ordering qs = None /\ low_mark qs = 0 /\ high_mark qs = Some c).
Proof.
  intros Hcount. destruct count as [c|].
  - destruct (get_queryset_capped self filter_ exclude c (Hcount c eq_refl))
      as (qs & Hq & _ & Ho & Hl & Hh).
    exists qs. split; [exact Hq|]. split; [|split].
    + unfold qs_wf. rewrite Hl, Hh. split; [lia | now apply Hcount].
    + discriminate.
    + intros c' Hc'. inversion Hc'; subst c'. now repeat split.
  - destruct (get_queryset_uncapped self filter_ exclude)
      as (qs & Hq & _ & Ho & Hl & Hh).
    exists qs. split; [exact Hq|]. split; [|split].
    + unfold qs_wf. rewrite Hl, Hh. split; [lia | exact I].
    + intros _. unfold QS.is_sliced. now rewrite Hl, Hh.
    + discriminate.
Qed.

Lemma indexing_total_of (self : Document) (filter_ exclude : option Q)
  (count : option Z) (qs : QuerySet) :
  get_queryset self filter_ exclude count = inr qs ->
  indexing_total self filter_ exclude count = QS.count (indexing_order qs).
Proof. intros Hq. unfold indexing_total. now rewrite Hq. Qed.

Section RunFacts.
Context {F : Type} `{PyFloat F}.
Variable clock : nat -> F.

(** A run, in terms of the loop started at cursor zero. *)
Lemma get_indexing_queryset_run (fuel : nat) (self : Document)
  (verbose : bool) (filter_ exclude : option Q) (count : option Z)
  (action : CommandAction) (qs : QuerySet) :
  get_queryset self filter_ exclude count = inr qs ->
  let label := present_participle_title action in
  let model := model_name (doc_class self) in
  let total := QS.count (indexing_order qs) in
  let passes :=
    indexing_loop clock verbose label model (indexing_order qs)
      (queryset_pagination (doc_class self)) total (clock 0) fuel 0 0 1%nat in
  let r :=
    get_indexing_queryset clock fuel self verbose filter_ exclude count
      action in
  iterations r = fst passes
  /\ status r = snd passes
  /\ header r
     = (if verbose then Some (progress_line label model "0" "~") else None)
  /\ footer r
     = match snd passes with
       | Exhausted =>
           if verbose
           then Some (label ++ " " ++ str_of_int total ++ " " ++ model
                      ++ ": OK          " ++ LF)
           else None
       | _ => None
       end.
Proof.
  intros Hq label model total passes r.
  unfold r, passes, get_indexing_queryset. rewrite Hq.
  fold label model total.
  destruct verbose; cbn [_eta Z.eqb];
    destruct (indexing_loop clock _ label model (indexing_order qs)
                (queryset_pagination (doc_class self)) total (clock 0)
                fuel 0 0 1%nat) as [its st];
    cbn [iterations status header footer fst snd]; repeat split.
Qed.

(** A negative cap: the generator raises [ValueError] at once; it yields
    no record and writes no line, not even in verbose mode. *)
Theorem negative_cap_raises (fuel : nat) (self : Document) (verbose : bool)
  (filter_ exclude : option Q) (c : Z) (action : CommandAction) :
  c < 0 ->
  let r :=
    get_indexing_queryset clock fuel self verbose filter_ exclude (Some c)
      action in
  status r = Raised (ValueError "Negative indexing is not supported.")
  /\ yielded r = []
  /\ written r = [].
Proof.
  intros Hc r. unfold r, get_indexing_queryset.
  rewrite (get_queryset_negative_cap self filter_ exclude c Hc).
  repeat split.
Qed.

Lemma lines_of_passes (verbose : bool) (action model : string)
  (qs : QuerySet) (P total : Z) (start : F) (fuel : nat) (i done : Z)
  (tick : nat) :
  List.length
    (List.concat
       (map (fun it => opt_list (it_line it))
          (fst (indexing_loop clock verbose action model qs P total start
                  fuel i done tick))))
  = if verbose
    then List.length
           (fst (indexing_loop clock verbose action model qs P total start
                   fuel i done tick))
    else 0%nat.
Proof.
  pose proof (loop_lines clock verbose action model qs P total start fuel i
                done tick) as Hlines.
  induction Hlines as [|it its Hit _ IH]; simpl.
  - now destruct verbose.
  - rewrite length_app, IH, Hit. now destruct verbose.
Qed.

(** A run that is not verbose writes nothing, however it ends. *)
Theorem quiet_run_writes_nothing (fuel : nat) (self : Document)
  (filter_ exclude : option Q) (count : option Z) (action : CommandAction) :
  written
    (get_indexing_queryset clock fuel self false filter_ exclude count action)
  = [].
Proof.
  destruct (get_queryset self filter_ exclude count) as [e|qs] eqn:Hq.
  - unfold get_indexing_queryset. now rewrite Hq.
  - destruct (get_indexing_queryset_run fuel self false filter_ exclude count
                action qs Hq) as (Hits & Hst & Hhd & Hft).
    unfold written. rewrite Hhd, Hft, Hits.
    pose proof (lines_of_passes false (present_participle_title action)
                  (model_name (doc_class self)) (indexing_order qs)
                  (queryset_pagination (doc_class self))
                  (QS.count (indexing_order qs)) (clock 0) fuel 0 0 1%nat)
      as Hlen.
    apply length_zero_iff_nil in Hlen. rewrite Hlen.
    now destruct (snd _).
Qed.

(** An empty selection: no pass of the loop whatever the page size and the
    bound; a verbose run writes the opening line and the closing line, which
    counts zero records, and nothing between them. *)
Theorem empty_selection_run (fuel : nat) (self : Document) (verbose : bool)
  (filter_ exclude : option Q) (count : option Z) (action : CommandAction) :
  (forall c, count = Some c -> 0 <= c) ->
  indexing_total self filter_ exclude count = 0 ->
  let r :=
    get_indexing_queryset clock fuel self verbose filter_ exclude count
      action in
  iterations r = []
  /\ status r = Exhausted
  /\ written r
     = if verbose
       then [ progress_line (present_participle_title action)
                (model_name (doc_class self)) "0" "~";
              present_participle_title action ++ " 0 "
              ++ model_name (doc_class self) ++ ": OK          " ++ LF ]
       else [].
Proof.
  intros Hcount Htotal r.
  destruct (get_queryset_ok self filter_ exclude count Hcount)
    as (qs & Hq & _).
  rewrite (indexing_total_of _ _ _ _ _ Hq) in Htotal.
  destruct (get_indexing_queryset_run fuel self verbose filter_ exclude count
              action qs Hq) as (Hits & Hst & Hhd & Hft).
  rewrite loop_finished in Hits, Hst, Hft by lia.
  fold r in Hits, Hst, Hhd, Hft. simpl in Hits, Hst, Hft.
  split; [exact Hits|]. split; [exact Hst|].
  unfold written. rewrite Hhd, Hft, Hits, Htotal.
  now destruct verbose.
Qed.

(** A page size of zero with a selection that is not empty: whatever the
    number of passes allowed, the generator has not ended and has yielded
    nothing. *)
Theorem zero_page_size_run (fuel : nat) (self : Document) (verbose : bool)
  (filter_ exclude : option Q) (count : option Z) (action : CommandAction) :
  queryset_pagination (doc_class self) = 0 ->
  (forall c, count = Some c -> 0 <= c) ->
  0 < indexing_total self filter_ exclude count ->
  let r :=
    get_indexing_queryset clock fuel self verbose filter_ exclude count
      action in
  status r = OutOfFuel /\ yielded r = [].
Proof.
  intros HP Hcount Htotal r.
  destruct (get_queryset_ok self filter_ exclude count Hcount)
    as (qs & Hq & _).
  rewrite (indexing_total_of _ _ _ _ _ Hq) in Htotal.
  destruct (get_indexing_queryset_run fuel self verbose filter_ exclude count
              action qs Hq) as (Hits & Hst & _).
  fold r in Hits, Hst. unfold yielded. rewrite Hits, Hst, HP.
  destruct (zero_page_size_never_ends clock verbose
              (present_participle_title action) (model_name (doc_class self))
              (indexing_order qs) (QS.count (indexing_order qs)) (clock 0)
              Htotal fuel 1%nat) as [Hs Hc].
  now split.
Qed.

(** A negative page size with a selection that is not empty: the first
    pass raises [ValueError] when it asks for its page; nothing is yielded,
    and a verbose run has written its opening line and one progress line. *)
Theorem negative_page_size_raises (fuel : nat) (self : Document)
  (verbose : bool) (filter_ exclude : option Q) (count : option Z)
  (action : CommandAction) :
  queryset_pagination (doc_class self) < 0 ->
  (forall c, count = Some c -> 0 <= c) ->
  0 < indexing_total self filter_ exclude count ->
  let r :=
    get_indexing_queryset clock (S fuel) self verbose filter_ exclude count
      action in
  status r = Raised (ValueError "Negative indexing is not supported.")
  /\ yielded r = []
  /\ List.length (written r) = if verbose then 2%nat else 0%nat.
Proof.
  intros HP Hcount Htotal r.
  destruct (get_queryset_ok self filter_ exclude count Hcount)
    as (qs & Hq & _).
  rewrite (indexing_total_of _ _ _ _ _ Hq) in Htotal.
  destruct (get_indexing_queryset_run (S fuel) self verbose filter_ exclude
              count action qs Hq) as (Hits & Hst & Hhd & Hft).
  fold r in Hits, Hst, Hhd, Hft.
  pose proof (lines_of_passes verbose (present_participle_title action)
                (model_name (doc_class self)) (indexing_order qs)
                (queryset_pagination (doc_class self))
                (QS.count (indexing_order qs)) (clock 0) (S fuel) 0 0 1%nat)
    as Hlines.
  assert (Hpass : exists it,
    indexing_loop clock verbose (present_participle_title action)
      (model_name (doc_class self)) (indexing_order qs)
      (queryset_pagination (doc_class self))
      (QS.count (indexing_order qs)) (clock 0) (S fuel) 0 0 1%nat
    = ([it], Raised (ValueError "Negative indexing is not supported."))
    /\ it_page it = []).
  { simpl. destruct (Z.ltb_spec 0 (QS.count (indexing_order qs))); [|lia].
    unfold QS.getitem, QS.negative. simpl.
    destruct (Z.ltb_spec (queryset_pagination (doc_class self)) 0); [|lia].
    destruct verbose; eexists; split; reflexivity. }
  destruct Hpass as (it & Hpass & Hpage).
  rewrite Hpass in Hits, Hst, Hft, Hlines. simpl in Hits, Hst, Hft, Hlines.
  split; [exact Hst|]. split.
  - unfold yielded. rewrite Hits. simpl. now rewrite Hpage.
  - unfold written. rewrite Hhd, Hft, Hits, !length_app. simpl in *.
    rewrite Hlines. now destruct verbose.
Qed.

End RunFacts.

Lemma negative_cap_raises_witness :
  -1 < 0
  /\ written
       (@get_indexing_queryset Z Sample.milli_float Sample.clock 5 Sample.doc
          true None None (Some (-1)) Sample.indexing)
     = [].
Proof.
  split; [reflexivity|].
  apply (@negative_cap_raises Z Sample.milli_float Sample.clock 5 Sample.doc
           true None None (-1) Sample.indexing).
  reflexivity.
Defined.

Lemma empty_selection_run_witness :
  (forall c, Some 0 = Some c -> 0 <= c)
  /\ indexing_total Sample.doc None None (Some 0) = 0
  /\ iterations
       (@get_indexing_queryset Z Sample.milli_float Sample.clock 0 Sample.doc
          true None None (Some 0) Sample.indexing)
     = [].
Proof.
  assert (H1 : forall c, Some 0 = Some c -> 0 <= c).
  { intros c Hc. inversion Hc; subst c. discriminate. }
  split; [exact H1|]. split; [reflexivity|].
  apply (@empty_selection_run Z Sample.milli_float Sample.clock 0 Sample.doc
           true None None (Some 0) Sample.indexing H1).
  reflexivity.
Defined.

Lemma zero_page_size_run_witness :
  let self :=
    @Document__init__ Sample.fields_module
      (with_pagination 0 Sample.BookDocument) None in
  queryset_pagination (doc_class self) = 0
  /\ (forall c, @None Z = Some c -> 0 <= c)
  /\ 0 < indexing_total self None None None
  /\ status
       (@get_indexing_queryset Z Sample.milli_float Sample.clock 7 self
          false None None None Sample.indexing)
     = OutOfFuel.
Proof.
  intros self.
  assert (H2 : forall c, @None Z = Some c -> 0 <= c) by discriminate.
  split; [reflexivity|]. split; [exact H2|]. split; [reflexivity|].
  apply (@zero_page_size_run Z Sample.milli_float Sample.clock 7 self false
           None None None Sample.indexing eq_refl H2).
  reflexivity.
Defined.

Lemma negative_page_size_raises_witness :
  let self :=
    @Document__init__ Sample.fields_module
      (with_pagination (-2) Sample.BookDocument) None in
  queryset_pagination (doc_class self) < 0
  /\ (forall c, @None Z = Some c -> 0 <= c)
  /\ 0 < indexing_total self None None None
  /\ yielded
       (@get_indexing_queryset Z Sample.milli_float Sample.clock 3 self
          true None None None Sample.indexing)
     = [].
Proof.
  intros self.
  assert (H2 : forall c, @None Z = Some c -> 0 <= c) by discriminate.
  split; [reflexivity|]. split; [exact H2|]. split; [reflexivity|].
  apply (@negative_page_size_raises Z Sample.milli_float Sample.clock 2 self
           true None None None Sample.indexing eq_refl H2).
  reflexivity.
Defined.

(* ================================================================== *)
(** ** Further facts: partial runs *)
(* ================================================================== *)

Section PrefixFacts.
Context {F : Type} `{PyFloat F}.
Variable clock : nat -> F.
Variables (verbose : bool) (action model : string).
Variables (qs : QuerySet) (P : Z) (start : F).
Hypothesis Hwf : qs_wf qs.
Hypothesis HP : 0 < P.

Local Abbreviation records := (QS.evaluate qs).
Local Abbreviation T := (QS.count qs).
Local Abbreviation loop :=
  (indexing_loop clock verbose action model qs P (QS.count qs) start).

(** After at most [fuel] passes from cursor [i] the loop has yielded the
    next [fuel * P] records, or all that were left if they are fewer; it
    has ended in the second case only. *)
Lemma loop_prefix (fuel : nat) :
  forall (i : Z) (tick : nat),
    0 <= i <= T ->
    List.concat (map it_page (fst (loop fuel i i tick)))
    = firstn (Z.to_nat (Z.min (Z.of_nat fuel * P) (T - i)))
        (skipn (Z.to_nat i) records)
    /\ snd (loop fuel i i tick)
       = (if T - i <=? Z.of_nat fuel * P then Exhausted else OutOfFuel).
Proof.
  induction fuel as [|fuel IH]; intros i tick Hi.
  - change (Z.of_nat 0 * P) with 0.
    replace (Z.to_nat (Z.min 0 (T - i))) with 0%nat by lia.
    simpl. destruct (Z.ltb_spec i T), (Z.leb_spec (T - i) 0); try lia;
      now split.
  - destruct (Z.eq_dec i T) as [Heq|Hne].
    + rewrite loop_finished by lia. simpl fst. simpl snd. split.
      * replace (Z.to_nat (Z.min (Z.of_nat (S fuel) * P) (T - i)))
          with 0%nat by lia.
        reflexivity.
      * destruct (Z.leb_spec (T - i) (Z.of_nat (S fuel) * P)); [reflexivity|].
        exfalso. nia.
    + destruct (loop_pass clock verbose action model qs P start fuel i i tick)
        as (line & tick' & Hpass); [lia | lia | lia |].
      rewrite Hpass. clear Hpass. rewrite page_length by (assumption || lia).
      replace (i + (Z.min (i + P) T - i)) with (Z.min (i + P) T) by lia.
      destruct (IH (Z.min (i + P) T) tick') as (Hcat & Hst); [lia|].
      cbn [fst snd map List.concat it_page]. split.
      * rewrite Hcat, slice_evaluate by (assumption || lia).
        destruct (Z_le_gt_dec (i + P) T) as [Hle|Hgt].
        -- replace (Z.min (i + P) T) with (i + P) by lia.
           replace (Z.to_nat (Z.min (Z.of_nat (S fuel) * P) (T - i)))
             with (Z.to_nat P
                   + Z.to_nat (Z.min (Z.of_nat fuel * P) (T - (i + P))))%nat
             by nia.
           rewrite firstn_plus, skipn_skipn. do 3 f_equal. lia.
        -- replace (Z.min (i + P) T) with T by lia.
           rewrite (skipn_all2 (n := Z.to_nat T))
             by (unfold QS.count; lia).
           rewrite firstn_nil, app_nil_r.
           assert (Hlen : (List.length (skipn (Z.to_nat i) records)
                           <= Z.to_nat P)%nat)
             by (rewrite length_skipn; unfold QS.count in *; lia).
           rewrite (firstn_all2 (n := Z.to_nat P)) by exact Hlen.
           symmetry. apply firstn_all2.
           rewrite length_skipn. unfold QS.count in *. nia.
      * rewrite Hst.
        destruct (Z.leb_spec (T - Z.min (i + P) T) (Z.of_nat fuel * P)),
                 (Z.leb_spec (T - i) (Z.of_nat (S fuel) * P));
          try reflexivity; exfalso; nia.
Qed.

End PrefixFacts.

Section PartialRuns.
Context {F : Type} `{PyFloat F}.
Variable clock : nat -> F.

(** A run bounded to [fuel] passes, for a positive page size [P]: it has
    yielded the first [fuel * P] records of the selection, in their order,
    or all [T] of them when they are fewer; it has ended exactly when
    [fuel * P] reaches [T].  So a consumer that stops early has seen a
    prefix of what the full run gives. *)
Theorem partial_run_prefix (fuel : nat) (self : Document) (verbose : bool)
  (filter_ exclude : option Q) (count : option Z) (action : CommandAction) :
  0 < queryset_pagination (doc_class self) ->
  (forall c, count = Some c -> 0 <= c) ->
  exists qs,
    get_queryset self filter_ exclude count = inr qs
    /\ let P := queryset_pagination (doc_class self) in
       let records := QS.evaluate (indexing_order qs) in
       let T := Z.of_nat (List.length records) in
       let r :=
         get_indexing_queryset clock fuel self verbose filter_ exclude count
           action in
       yielded r = firstn (Z.to_nat (Z.min (Z.of_nat fuel * P) T)) records
       /\ Z.of_nat (List.length (yielded r)) = Z.min (Z.of_nat fuel * P) T
       /\ status r
          = (if T <=? Z.of_nat fuel * P then Exhausted else OutOfFuel).
Proof.
  intros HP Hcount.
  destruct (get_queryset_ok self filter_ exclude count Hcount)
    as (qs & Hq & Hwf & _).
  exists qs. split; [exact Hq|]. cbv zeta.
  destruct (get_indexing_queryset_run clock fuel self verbose filter_ exclude
              count action qs Hq) as (Hits & Hst & _).
  destruct (loop_prefix clock verbose (present_participle_title action)
              (model_name (doc_class self)) (indexing_order qs)
              (queryset_pagination (doc_class self)) (clock 0)
              (indexing_order_wf qs Hwf) HP fuel 0 1%nat) as (Hcat & Hend).
  { unfold QS.count. lia. }
  unfold yielded. rewrite Hits, Hst, Hcat, Hend.
  unfold QS.count. rewrite Z.sub_0_r. simpl skipn.
  split; [reflexivity|]. split; [|reflexivity].
  rewrite length_firstn. nia.
Qed.

(** With a cap [c] and a positive page size, a run never yields more than
    [c] records, however many passes it is given: what it has yielded is a
    prefix, of length at most [c], of the rows that pass the filter and are
    not excluded. *)
Theorem capped_run_bound (fuel : nat) (self : Document) (verbose : bool)
  (filter_ exclude : option Q) (c : Z) (action : CommandAction) :
  0 < queryset_pagination (doc_class self) ->
  0 <= c ->
  let r :=
    get_indexing_queryset clock fuel self verbose filter_ exclude (Some c)
      action in
  Z.of_nat (List.length (yielded r)) <= c
  /\ exists n : nat,
       Z.of_nat n <= c
       /\ yielded r
          = firstn n
              (List.filter (keeps filter_ exclude)
                 (model_objects (doc_class self))).
Proof.
  intros HP Hc r.
  assert (Hcount : forall c', Some c = Some c' -> 0 <= c')
    by (intros c' Hc'; inversion Hc'; now subst).
  destruct (get_queryset_ok self filter_ exclude (Some c) Hcount)
    as (qs & Hq & Hwf & _ & Hcap).
  destruct (Hcap c eq_refl) as (Ho & Hl & Hh).
  destruct (get_indexing_queryset_run clock fuel self verbose filter_ exclude
              (Some c) action qs Hq) as (Hits & _).
  destruct (loop_prefix clock verbose (present_participle_title action)
              (model_name (doc_class self)) (indexing_order qs)
              (queryset_pagination (doc_class self)) (clock 0)
              (indexing_order_wf qs Hwf) HP fuel 0 1%nat) as (Hcat & _).
  { unfold QS.count. lia. }
  assert (Hy : yielded r
               = firstn
                   (Init.Nat.min
                      (Z.to_nat
                         (Z.min (Z.of_nat fuel
                                 * queryset_pagination (doc_class self))
                            (QS.count (indexing_order qs) - 0)))
                      (Z.to_nat c))
                   (List.filter (keeps filter_ exclude)
                      (model_objects (doc_class self)))).
  { unfold r, yielded. rewrite Hits, Hcat. simpl skipn.
    rewrite (evaluate_indexing_order_capped qs c Ho Hl Hh), firstn_firstn.
    now rewrite (get_queryset_where _ _ _ _ _ Hq). }
  split.
  - rewrite Hy, length_firstn. lia.
  - eexists. split; [|exact Hy]. lia.
Qed.

(** A verbose run that ends, for a positive page size: it has written the
    opening line, one progress line for each of the [ceil(T / P)] pages,
    and the closing line, which counts the [T] records. *)
Theorem verbose_run_lines (fuel : nat) (self : Document)
  (filter_ exclude : option Q) (count : option Z) (action : CommandAction) :
  0 < queryset_pagination (doc_class self) ->
  (forall c, count = Some c -> 0 <= c) ->
  indexing_total self filter_ exclude count <= Z.of_nat fuel ->
  let P := queryset_pagination (doc_class self) in
  let T := indexing_total self filter_ exclude count in
  let r :=
    get_indexing_queryset clock fuel self true filter_ exclude count action in
  Z.of_nat (List.length (written r)) = pages_needed T P + 2
  /\ header r
     = Some (progress_line (present_participle_title action)
               (model_name (doc_class self)) "0" "~")
  /\ footer r
     = Some (present_participle_title action ++ " " ++ str_of_int T ++ " "
             ++ model_name (doc_class self) ++ ": OK          " ++ LF).
Proof.
  intros HP Hcount Hfuel P T r.
  destruct (get_queryset_ok self filter_ exclude count Hcount)
    as (qs & Hq & Hwf & _).
  unfold T in *. rewrite (indexing_total_of _ _ _ _ _ Hq) in *.
  destruct (get_indexing_queryset_run clock fuel self true filter_ exclude
              count action qs Hq) as (Hits & Hst & Hhd & Hft).
  fold r in Hits, Hst, Hhd, Hft.
  destruct (loop_spec clock true (present_participle_title action)
              (model_name (doc_class self)) (indexing_order qs)
              (queryset_pagination (doc_class self)) (clock 0)
              (indexing_order_wf qs Hwf) HP fuel 0 1%nat)
    as (Hend & _ & Hlen & _).
  { unfold QS.count. lia. }
  { lia. }
  pose proof (lines_of_passes clock true (present_participle_title action)
                (model_name (doc_class self)) (indexing_order qs)
                (queryset_pagination (doc_class self))
                (QS.count (indexing_order qs)) (clock 0) fuel 0 0 1%nat)
    as Hlines.
  rewrite Hend in Hft. rewrite Z.sub_0_r in Hlen.
  split; [|split; assumption].
  unfold written. rewrite Hhd, Hft, Hits, !length_app, Hlines.
  simpl List.length. unfold P. lia.
Qed.

End PartialRuns.

Lemma partial_run_prefix_witness :
  0 < queryset_pagination (doc_class Sample.doc)
  /\ (forall c, @None Z = Some c -> 0 <= c)
  /\ exists qs,
       get_queryset Sample.doc None None None = inr qs
       /\ yielded
            (@get_indexing_queryset Z Sample.milli_float Sample.clock 1
               Sample.doc false None None None Sample.indexing)
          = firstn 2 (QS.evaluate (indexing_order qs)).
Proof.
  assert (H1 : 0 < queryset_pagination (doc_class Sample.doc)) by reflexivity.
  assert (H2 : forall c, @None Z = Some c -> 0 <= c) by discriminate.
  split; [exact H1|]. split; [exact H2|].
  destruct (@partial_run_prefix Z Sample.milli_float Sample.clock 1
              Sample.doc false None None None Sample.indexing H1 H2)
    as (qs & Hq & Hy & _).
  exists qs. split; [exact Hq|].
  rewrite Hy. unfold get_queryset in Hq. simpl in Hq.
  inversion Hq; subst qs. reflexivity.
Defined.

Lemma capped_run_bound_witness :
  0 < queryset_pagination (doc_class Sample.doc)
  /\ 0 <= 3
  /\ Z.of_nat
       (List.length
          (yielded
             (@get_indexing_queryset Z Sample.milli_float Sample.clock 9
                Sample.doc false None None (Some 3) Sample.indexing)))
     <= 3.
Proof.
  assert (H1 : 0 < queryset_pagination (doc_class Sample.doc)) by reflexivity.
  assert (H2 : 0 <= 3) by discriminate.
  split; [exact H1|]. split; [exact H2|].
  exact (proj1 (@capped_run_bound Z Sample.milli_float Sample.clock 9
                  Sample.doc false None None 3 Sample.indexing H1 H2)).
Defined.

Lemma verbose_run_lines_witness :
  0 < queryset_pagination (doc_class Sample.doc)
  /\ (forall c, @None Z = Some c -> 0 <= c)
  /\ indexing_total Sample.doc None None None <= Z.of_nat 5
  /\ Z.of_nat
       (List.length
          (written
             (@get_indexing_queryset Z Sample.milli_float Sample.clock 5
                Sample.doc true None None None Sample.indexing)))
     = 5.
Proof.
  assert (H1 : 0 < queryset_pagination (doc_class Sample.doc)) by reflexivity.
  assert (H2 : forall c, @None Z = Some c -> 0 <= c) by discriminate.
  assert (H3 : indexing_total Sample.doc None None None <= Z.of_nat 5)
    by (vm_compute; discriminate).
  split; [exact H1|]. split; [exact H2|]. split; [exact H3|].
  rewrite (proj1 (@verbose_run_lines Z Sample.milli_float Sample.clock 5
                    Sample.doc None None None Sample.indexing H1 H2 H3)).
  reflexivity.
Defined.

(* ================================================================== *)
(** ** Further facts: prepared fields *)
(* ================================================================== *)

Section PreparedFacts.
Context `{FieldsModule}.

Lemma first_name_of_absent (items : list (string * FieldObject)) (ref : nat) :
  (forall n, ~ In (n, DOD ref) items) -> first_name_of items ref = None.
Proof.
  induction items as [|[n [r|d]] items IH]; simpl; intros Hno; [reflexivity| |].
  - destruct (Nat.eqb_spec r ref) as [->|Hne].
    + exfalso. apply (Hno n). now left.
    + apply IH. intros n' Hin. apply (Hno n'). now right.
  - apply IH. intros n' Hin. apply (Hno n'). now right.
Qed.

(** After construction there is one prepared field for each declared index
    field, under the same name and in the same order; it has the class and
    the attribute of the declared field, and an access path that is never
    empty: the declared one, or, when none was declared, the first name
    under which the field object is declared in [_fields].  That name is
    the name of the entry unless an earlier entry holds the same object: a
    field object declared under two names is prepared, under both, with the
    path of the first.  The field objects of the class are left in that
    state. *)
Theorem init_prepare_paths (cls : DocumentClass) (related : option Model) :
  (forall d, _fields cls = Some d -> PyDict.wf d) ->
  map (fun pf : PreparedField => fst (fst pf))
    (_prepared_fields (Document__init__ cls related))
  = map fst (declared_index_fields cls)
  /\ (forall name field fn,
        In (name, field, fn) (_prepared_fields (Document__init__ cls related)) ->
        _path field <> []
        /\ exists declared,
             In (name, declared) (declared_index_fields cls)
             /\ field_class field = field_class declared
             /\ attr field = attr declared
             /\ _path field
                = match _path declared with
                  | [] => [first_declared_name cls name]
                  | _ :: _ => _path declared
                  end)
  /\ (forall d name ref,
        _fields cls = Some d -> In (name, DOD ref) d ->
        first_name_of d ref = Some (first_declared_name cls name)
        /\ field_objects (doc_class (Document__init__ cls related)) ref
           = with_default_path (first_declared_name cls name)
               (field_objects cls ref))
  /\ (forall before after name ref,
        _fields cls = Some (before ++ (name, DOD ref) :: after)%list ->
        (forall n, ~ In (n, DOD ref) before) ->
        first_declared_name cls name = name).
Proof.
  intros Hwf.
  assert (Hfirst : forall d name ref,
    _fields cls = Some d -> In (name, DOD ref) d ->
    first_name_of d ref = Some (first_declared_name cls name)).
  { intros d name ref Hd Hin. unfold first_declared_name. rewrite Hd.
    rewrite (PyDict_get_In name (DOD ref) d (Hwf d Hd) Hin).
    destruct (first_name_of_In d name ref Hin) as [first Hf].
    now rewrite Hf. }
  rewrite (prepared_fields_of_new cls related Hwf).
  split; [|split; [|split]].
  - rewrite map_map. reflexivity.
  - intros name field fn Hin. apply in_map_iff in Hin.
    destruct Hin as ([n declared] & Heq & Hin).
    unfold prepared_entry in Heq. simpl in Heq. inversion Heq; subst.
    split; [apply with_default_path_nonempty|].
    exists declared. split; [exact Hin|].
    unfold with_default_path.
    destruct (_path declared) eqn:Hp; simpl; rewrite ?Hp; repeat split.
  - intros d name ref Hd Hin. split; [now apply Hfirst|].
    rewrite (proj2 (prepared_fields_by_ref cls related)).
    apply resolved_by_name; [exact Hwf|].
    apply index_refs_of_In. unfold index_entries. now rewrite Hd.
  - intros before after name ref Hd Hno.
    assert (Hin : In (name, DOD ref) (before ++ (name, DOD ref) :: after))
      by (apply in_or_app; right; now left).
    pose proof (Hfirst _ name ref Hd Hin) as Hf.
    rewrite first_name_of_app, (first_name_of_absent before ref Hno) in Hf.
    simpl in Hf. rewrite Nat.eqb_refl in Hf. injection Hf as Hn.
    symmetry. exact Hn.
Qed.

(** A document whose class declares no index field (no [_fields], an empty
    one, or one with foreign field objects only) prepares the empty
    payload for every record, and indexes it as such. *)
Theorem prepare_without_fields (cls : DocumentClass) (related : option Model)
  (record : Model) :
  declared_index_fields cls = [] ->
  prepare (Document__init__ cls related) record = []
  /\ PyDict.get "_source"
       (_prepare_action (Document__init__ cls related) record INDEX)
     = Some (VDict []).
Proof.
  intros Hnone.
  assert (Hp : prepare (Document__init__ cls related) record = []).
  { unfold prepare. rewrite (proj1 (prepared_fields_by_ref cls related)).
    rewrite declared_index_fields_refs in Hnone.
    apply map_eq_nil in Hnone. now rewrite Hnone. }
  split; [exact Hp|].
  change (PyDict.get "_source"
            (_prepare_action (Document__init__ cls related) record INDEX))
    with (Some (VDict (prepare (Document__init__ cls related) record))).
  now rewrite Hp.
Qed.

End PreparedFacts.

Lemma init_prepare_paths_witness :
  (forall d, _fields SharedFieldDocument = Some d -> PyDict.wf d)
  /\ exists field fn,
       In ("heading", field, fn)
         (_prepared_fields
            (@Document__init__ Sample.fields_module SharedFieldDocument None))
       /\ _path field = ["title"].
Proof.
  assert (Hwf : forall d, _fields SharedFieldDocument = Some d -> PyDict.wf d).
  { intros d Hd. inversion Hd; subst. unfold PyDict.wf. simpl.
    repeat (constructor; [simpl; intuition discriminate|]). constructor. }
  split; [exact Hwf|].
  exists (with_default_path "title" Sample.title_field).
  eexists. split; [simpl; right; left; reflexivity|].
  destruct (proj1 (proj2 (@init_prepare_paths Sample.fields_module
                            SharedFieldDocument None Hwf))
              "heading" (with_default_path "title" Sample.title_field) _
              (or_intror (or_introl eq_refl)))
    as (_ & declared & Hin & _ & _ & Hpath).
  etransitivity; [exact Hpath|]. simpl in Hin.
  destruct Hin as [Heq|[Heq|[]]]; inversion Heq; reflexivity.
Defined.

Lemma prepare_without_fields_witness :
  declared_index_fields (with_fields None Sample.BookDocument) = []
  /\ prepare
       (@Document__init__ Sample.fields_module
          (with_fields None Sample.BookDocument) None)
       (Sample.book 7 "x" 1999)
     = [].
Proof.
  split; [reflexivity|].
  apply (@prepare_without_fields Sample.fields_module
           (with_fields None Sample.BookDocument) None
           (Sample.book 7 "x" 1999)).
  reflexivity.
Defined.

(* ================================================================== *)
(** ** Further facts: action streams *)
(* ================================================================== *)

Lemma get_actions_map_filter (self : Document) (object_list : list Model)
  (action : BulkAction) :
  _get_actions self object_list action
  = map (fun o => _prepare_action self o action)
      (List.filter (retained self action) object_list).
Proof.
  induction object_list as [|o l IH]; simpl; [reflexivity|].
  destruct action; simpl in *;
    try (destruct (should_index_object (doc_class self) o); simpl);
    now rewrite IH.
Qed.

(** The action stream has one descriptor for each record that is kept (all
    of them for DELETE, those that [should_index_object] accepts
    otherwise), in the order of the records; the descriptor of a record
    is identified by what [generate_id] gives for it, its primary key when
    the method is the one of the base class. *)
Theorem action_stream_ids (self : Document) (object_list : list Model)
  (action : BulkAction) :
  map (PyDict.get "_id") (_get_actions self object_list action)
  = map (fun o => Some (generate_id (doc_class self) o))
      (List.filter (retained self action) object_list)
  /\ (List.length (_get_actions self object_list action)
      <= List.length object_list)%nat
  /\ List.length (_get_actions self object_list DELETE)
     = List.length object_list
  /\ (generate_id (doc_class self) = Document_generate_id ->
      map (PyDict.get "_id") (_get_actions self object_list action)
      = map (fun o => Some (VInt (pk o)))
          (List.filter (retained self action) object_list)).
Proof.
  assert (Hids :
    map (PyDict.get "_id") (_get_actions self object_list action)
    = map (fun o => Some (generate_id (doc_class self) o))
        (List.filter (retained self action) object_list)).
  { rewrite get_actions_map_filter, map_map. apply map_ext.
    intros o. apply prepare_action_id. }
  split; [exact Hids|]. split; [|split].
  - rewrite get_actions_map_filter, length_map. apply filter_length_le.
  - rewrite get_actions_map_filter, length_map. clear Hids.
    induction object_list as [|o l IH]; simpl; [reflexivity|].
    now rewrite IH.
  - intros Hdef. rewrite Hids, Hdef. reflexivity.
Qed.

(** Every descriptor of an action stream has the same four keys, in the
    same order, the last of them the payload key of the action; its
    operation is the value of the action and its index the one of the
    document. *)
Theorem action_stream_shape (self : Document) (object_list : list Model)
  (action : BulkAction) :
  Forall (fun d : Action =>
            PyDict.keys d = ["_op_type"; "_index"; "_id"; payload_key action]
            /\ PyDict.get "_op_type" d = Some (VStr (BulkAction_value action))
            /\ PyDict.get "_index" d
               = Some (VStr (index_name (doc_class self))))
    (_get_actions self object_list action).
Proof.
  rewrite get_actions_map_filter. apply Forall_forall.
  intros d Hin. apply in_map_iff in Hin. destruct Hin as (o & <- & _).
  destruct action; repeat split.
Qed.

Lemma action_stream_ids_witness :
  generate_id (doc_class Sample.doc) = Document_generate_id
  /\ map (PyDict.get "_id") (_get_actions Sample.doc Sample.books INDEX)
     = [Some (VInt 3); Some (VInt 5); Some (VInt 4)].
Proof.
  split; [reflexivity|].
  rewrite (proj2 (proj2 (proj2
             (action_stream_ids Sample.doc Sample.books INDEX))) eq_refl).
  reflexivity.
Defined.

(* ================================================================== *)
(** ** Further facts: what the transport is given *)
(* ================================================================== *)

Lemma PyDict_get_setdefault {V} (k k0 : string) (v : V) (d : PyDict.t V) :
  PyDict.get k0 (PyDict.setdefault k v d)
  = if String.eqb k0 k
    then match PyDict.get k d with Some w => Some w | None => Some v end
    else PyDict.get k0 d.
Proof.
  unfold PyDict.setdefault, PyDict.mem.
  destruct (String.eqb_spec k0 k) as [->|Hne].
  - destruct (PyDict.get k d) eqn:E; [exact E | apply PyDict_get_set_eq].
  - destruct (PyDict.get k d); [reflexivity | now apply PyDict_get_set_ne].
Qed.

Lemma PyDict_get_fold_set_congr {V} (k0 : string)
  (entries acc acc' : PyDict.t V) :
  PyDict.get k0 acc = PyDict.get k0 acc' ->
  PyDict.get k0
    (fold_left (fun d kv => PyDict.set (fst kv) (snd kv) d) entries acc)
  = PyDict.get k0
      (fold_left (fun d kv => PyDict.set (fst kv) (snd kv) d) entries acc').
Proof.
  revert acc acc'. induction entries as [|[k v] entries IH];
    intros acc acc' Hacc; simpl; [exact Hacc|].
  apply IH. destruct (String.eqb_spec k0 k) as [->|Hne].
  - now rewrite !PyDict_get_set_eq.
  - now rewrite !PyDict_get_set_ne.
Qed.

Section TransportFacts.
Context {S : Type} `{BulkTransport S}.

(** In sequential mode [update] returns what the transport's [bulk]
    returns for the action stream, and leaves the cluster as [bulk] leaves
    it.  The keyword arguments it hands over are those of the caller plus
    [refresh], whose value is the argument when one is given, else the
    [auto_refresh] of the index when it is set, else the global setting.
    (The caller's keywords cannot hold [refresh], a parameter of
    [update].) *)
Theorem sequential_update_response (config : DODConfig) (self : Document)
  (thing : Thing) (action : BulkAction) (refresh parallel : option bool)
  (using_ : option string) (kwargs : Kwargs) (w : World S) :
  effective_parallel config parallel = false ->
  ~ In "refresh" (map fst kwargs) ->
  exists kw : Kwargs,
    fst (update config self thing action refresh parallel using_ kwargs w)
    = fst (helpers_bulk using_
             (_get_actions self (iterate (object_list_of thing)) action)
             kw (cluster w))
    /\ cluster
         (snd (update config self thing action refresh parallel using_
                 kwargs w))
       = snd (helpers_bulk using_
                (_get_actions self (iterate (object_list_of thing)) action)
                kw (cluster w))
    /\ (forall b, refresh = Some b ->
        PyDict.get "refresh" kw = Some (VBool b))
    /\ (forall b, refresh = None ->
        Index_auto_refresh (doc_class self) = Some b ->
        PyDict.get "refresh" kw = Some (VBool b))
    /\ (refresh = None -> Index_auto_refresh (doc_class self) = None ->
        PyDict.get "refresh" kw = Some (VBool (auto_refresh_enabled config)))
    /\ (forall k, k <> "refresh" ->
        PyDict.get k kw = PyDict.get k (PyDict.of_entries kwargs)).
Proof.
  intros Hseq Hfresh.
  exists (update_kwargs config self refresh kwargs).
  rewrite update_unfold, Hseq. unfold _bulk, update_actions.
  destruct (bulk_spec self
              (ActionGenerator
                 (_get_actions self (iterate (object_list_of thing)) action))
              using_ (update_kwargs config self refresh kwargs) w)
    as (Hf & Hc & _).
  assert (Hget : PyDict.get "refresh" (update_kwargs config self refresh kwargs)
                 = Some (VBool (effective_refresh config self refresh))).
  { unfold update_kwargs, PyDict.of_entries. simpl fold_left.
    now rewrite PyDict_get_fold_set_other. }
  split; [exact Hf|]. split; [exact Hc|].
  split; [|split; [|split]].
  - intros b ->. exact Hget.
  - intros b -> Hidx. rewrite Hget. unfold effective_refresh. now rewrite Hidx.
  - intros -> Hidx. rewrite Hget. unfold effective_refresh. now rewrite Hidx.
  - intros k Hk. unfold update_kwargs, PyDict.of_entries. simpl fold_left.
    apply PyDict_get_fold_set_congr. simpl.
    destruct (String.eqb_spec k "refresh"); [contradiction|reflexivity].
Qed.

(** [parallel_bulk] asks the transport for chunks of the configured page
    size unless the caller gave a chunk size, which is then kept; the other
    keyword arguments are handed over as they are. *)
Theorem parallel_chunk_size (self : Document) (actions : ActionStream)
  (using_ : option string) (kwargs : Kwargs) (w : World S) :
  exists kw : Kwargs,
    parallel_bulk self actions using_ kwargs w
    = ((1, VList []),
       {| cluster :=
            snd (run_generator
                   (helpers_parallel_bulk using_ (stream_items actions) kw)
                   (cluster w));
          post_index := post_index w |})
    /\ PyDict.get "chunk_size" kw
       = match PyDict.get "chunk_size" kwargs with
         | Some given => Some given
         | None => Some (VInt (queryset_pagination (doc_class self)))
         end
    /\ (forall k, k <> "chunk_size" ->
        PyDict.get k kw = PyDict.get k kwargs).
Proof.
  exists (PyDict.setdefault "chunk_size"
            (VInt (queryset_pagination (doc_class self))) kwargs).
  split; [apply parallel_bulk_spec|]. split.
  - rewrite PyDict_get_setdefault. reflexivity.
  - intros k Hk. rewrite PyDict_get_setdefault.
    destruct (String.eqb_spec k "chunk_size"); [contradiction|reflexivity].
Qed.

(** A single record that [should_index_object] rejects, under INDEX or
    UPDATE: the action stream is empty, yet in sequential mode the
    transport's [bulk] is still called, with no action, and the
    notification is still sent, with no action and with the response of
    that call. *)
Theorem update_rejected_record (config : DODConfig) (self : Document)
  (r : Model) (action : BulkAction) (refresh parallel : option bool)
  (using_ : option string) (kwargs : Kwargs) (w : World S) :
  should_index_object (doc_class self) r = false ->
  action <> DELETE ->
  effective_parallel config parallel = false ->
  _get_actions self (iterate (object_list_of (Instance r))) action = []
  /\ exists kw : Kwargs,
       fst (update config self (Instance r) action refresh parallel using_
              kwargs w)
       = fst (helpers_bulk using_ [] kw (cluster w))
       /\ post_index
            (snd (update config self (Instance r) action refresh parallel
                    using_ kwargs w))
          = (post_index w
             ++ [ {| sender := class_name (doc_class self);
                     instance := self;
                     sig_actions := ActionGenerator [];
                     sig_response :=
                       fst (helpers_bulk using_ [] kw (cluster w)) |} ])%list.
Proof.
  intros Hno Hact Hseq.
  assert (Hnil : _get_actions self (iterate (object_list_of (Instance r)))
                   action = []).
  { simpl. rewrite Hno. destruct action; [reflexivity | reflexivity |].
    congruence. }
  split; [exact Hnil|].
  exists (update_kwargs config self refresh kwargs).
  rewrite update_unfold, Hseq. unfold _bulk, update_actions.
  rewrite Hnil.
  destruct (bulk_spec self (ActionGenerator []) using_
              (update_kwargs config self refresh kwargs) w) as (Hf & _ & Hp).
  split; [exact Hf | exact Hp].
Qed.

End TransportFacts.

Lemma sequential_update_response_witness :
  effective_parallel Sample.config (Some false) = false
  /\ ~ In "refresh" (map fst (@nil (string * PyVal)))
  /\ fst (@update _ Sample.transport Sample.config Sample.doc
            (Objects (PyList Sample.books)) INDEX None (Some false) None []
            Sample.world0)
     = (3, VList []).
Proof.
  assert (H1 : effective_parallel Sample.config (Some false) = false)
    by reflexivity.
  assert (H2 : ~ In "refresh" (map fst (@nil (string * PyVal))))
    by (simpl; tauto).
  split; [exact H1|]. split; [exact H2|].
  destruct (@sequential_update_response _ Sample.transport Sample.config
              Sample.doc (Objects (PyList Sample.books)) INDEX None
              (Some false) None [] Sample.world0 H1 H2) as (kw & Hfst & _).
  rewrite Hfst. reflexivity.
Defined.

Lemma update_rejected_record_witness :
  should_index_object (doc_class Sample.doc) (Sample.book 1 "a" 2001) = false
  /\ UPDATE <> DELETE
  /\ effective_parallel Sample.config (Some false) = false
  /\ _get_actions Sample.doc
       (iterate (object_list_of (Instance (Sample.book 1 "a" 2001)))) UPDATE
     = [].
Proof.
  assert (H2 : UPDATE <> DELETE) by discriminate.
  split; [reflexivity|]. split; [exact H2|]. split; [reflexivity|].
  exact (proj1 (@update_rejected_record _ Sample.transport Sample.config
                  Sample.doc (Sample.book 1 "a" 2001) UPDATE None (Some false)
                  None [] Sample.world0 eq_refl H2 eq_refl)).
Defined.

(* ================================================================== *)
(** ** Further facts: the estimate shown *)
(* ================================================================== *)

Section EtaFacts.
Context {F : Type} `{PyFloat F}.
Variable clock : nat -> F.

(** Once a record is done, [_eta] shows either a number of seconds that is
    at most 120 (a negative estimate is shown in seconds too), or a number
    of minutes that is at least 2. *)
Theorem eta_shown_bounds (tick : nat) (start : F) (done total : Z) :
  done <> 0 ->
  (exists n, n <= 120
             /\ fst (_eta clock tick start done total)
                = str_of_int n ++ " secs")
  \/ (exists m, 2 <= m
                /\ fst (_eta clock tick start done total)
                   = str_of_int m ++ " mins").
Proof.
  intros Hdone. unfold _eta.
  destruct (Z.eqb_spec done 0) as [|_]; [contradiction|].
  set (e := pyround _).
  destruct (Z.gtb_spec e 120) as [Hgt|Hle].
  - right. exists (e / 60). split; [|reflexivity].
    apply Z.div_le_lower_bound; lia.
  - left. exists e. split; [exact Hle|reflexivity].
Qed.

End EtaFacts.

Lemma eta_shown_bounds_witness :
  2 <> 0
  /\ fst (@_eta Z Sample.milli_float Sample.clock 1 0 2 5) = "2 mins".
Proof.
  split; [discriminate|].
  destruct (@eta_shown_bounds Z Sample.milli_float Sample.clock 1%nat 0 2 5)
    as [(n & Hn & Heq)|(m & Hm & Heq)]; [discriminate | |]; reflexivity.
Defined.

(* ================================================================== *)
(** ** Further facts: no record twice *)
(* ================================================================== *)

Lemma NoDup_firstn_of {A} (n : nat) (l : list A) :
  NoDup l -> NoDup (firstn n l).
Proof.
  revert l. induction n as [|n IH]; intros l Hnd; simpl; [constructor|].
  destruct l as [|x l]; [constructor|].
  inversion Hnd as [|? ? Hnotin Hnd']; subst.
  constructor; [|now apply IH].
  intros Hin. apply Hnotin. eapply In_firstn. exact Hin.
Qed.

Lemma NoDup_map_filter {A B} (f : A -> B) (p : A -> bool) (l : list A) :
  NoDup (map f l) -> NoDup (map f (List.filter p l)).
Proof.
  induction l as [|x l IH]; simpl; intros Hnd; [constructor|].
  inversion Hnd as [|? ? Hnotin Hnd']; subst.
  destruct (p x); simpl; [|now apply IH].
  constructor; [|now apply IH].
  intros Hin. apply Hnotin. apply in_map_iff in Hin.
  destruct Hin as (y & Hy & Hin). apply filter_In in Hin.
  rewrite <- Hy. apply in_map. tauto.
Qed.

Section DistinctFacts.
Context {F : Type} `{PyFloat F}.
Variable clock : nat -> F.

(** When the rows of the table have distinct primary keys, a run with a
    positive page size never yields two records with the same key, with or
    without a cap and however many passes it is given. *)
Theorem run_yields_distinct_keys (fuel : nat) (self : Document)
  (verbose : bool) (filter_ exclude : option Q) (count : option Z)
  (action : CommandAction) :
  0 < queryset_pagination (doc_class self) ->
  (forall c, count = Some c -> 0 <= c) ->
  NoDup (map pk (model_objects (doc_class self))) ->
  NoDup
    (map pk
       (yielded
          (get_indexing_queryset clock fuel self verbose filter_ exclude
             count action))).
Proof.
  intros HP Hcount Hkeys.
  destruct (get_queryset_ok self filter_ exclude count Hcount)
    as (qs & Hq & Hwf & Hnone & Hsome).
  destruct (get_indexing_queryset_run clock fuel self verbose filter_ exclude
              count action qs Hq) as (Hits & _).
  destruct (loop_prefix clock verbose (present_participle_title action)
              (model_name (doc_class self)) (indexing_order qs)
              (queryset_pagination (doc_class self)) (clock 0)
              (indexing_order_wf qs Hwf) HP fuel 0 1%nat) as (Hcat & _).
  { unfold QS.count. lia. }
  unfold yielded. rewrite Hits, Hcat. simpl skipn.
  rewrite <- firstn_map. apply NoDup_firstn_of.
  assert (Hsel : NoDup (map pk (selection qs))).
  { rewrite (get_queryset_where _ _ _ _ _ Hq). now apply NoDup_map_filter. }
  destruct count as [c|].
  - destruct (Hsome c eq_refl) as (Ho & Hl & Hh).
    rewrite (evaluate_indexing_order_capped qs c Ho Hl Hh), <- firstn_map.
    now apply NoDup_firstn_of.
  - rewrite (evaluate_indexing_order_unsliced qs (Hnone eq_refl)).
    eapply Permutation_NoDup; [|exact Hsel].
    apply Permutation_map, Permutation_sym, sort_by_perm.
Qed.

End DistinctFacts.

Lemma run_yields_distinct_keys_witness :
  0 < queryset_pagination (doc_class Sample.doc)
  /\ (forall c, @None Z = Some c -> 0 <= c)
  /\ NoDup (map pk (model_objects (doc_class Sample.doc)))
  /\ NoDup
       (map pk
          (yielded
             (@get_indexing_queryset Z Sample.milli_float Sample.clock 2
                Sample.doc false None None None Sample.indexing))).
Proof.
  assert (H1 : 0 < queryset_pagination (doc_class Sample.doc)) by reflexivity.
  assert (H2 : forall c, @None Z = Some c -> 0 <= c) by discriminate.
  assert (H3 : NoDup (map pk (model_objects (doc_class Sample.doc)))).
  { simpl. repeat (constructor; [simpl; intuition discriminate|]).
    constructor. }
  split; [exact H1|]. split; [exact H2|]. split; [exact H3|].
  exact (@run_yields_distinct_keys Z Sample.milli_float Sample.clock 2
           Sample.doc false None None None Sample.indexing H1 H2 H3).
Defined.
